(** * Zoho Books client: token lifecycle, retried requests, invoice listing

    A shallow embedding of [src/zoho_integration.py] (class [ZohoBooks]) and
    of the parts of its collaborators that decide its behaviour:

    - Python values as produced by [response.json()] (type [value]);
    - the exceptions that can travel through the methods (type [exn]);
    - [datetime] and [timedelta] as integer counts of microseconds, with the
      range checks that make Python raise [OverflowError];
    - [requests]: a call either raises or returns a [Response]; the replies
      of the outside world are an oracle [Env], indexed by call number;
    - [tenacity]: the [Retrying] loop for [stop_after_attempt] and
      [wait_exponential].

    Methods are computations in a state-and-exception monad [M] over a
    [World]: the [ZohoBooks] object, the call counters that index the oracle
    and the trace of outgoing calls.  As in Python, an exception does not roll
    the object back: assignments made before the [raise] stay.

    Not modelled: the log messages (no method reads them back; of [loguru]
    only whether [logger.add] raises is kept), and JSON numbers with a
    fraction or an exponent (Python floats). *)

From Stdlib Require Import ZArith String List Bool Lia.
From stdpp Require Import base strings gmap list.
From Equations.Prop Require Import Equations Logic.

Local Open Scope string_scope.
Local Open Scope list_scope.
Local Open Scope Z_scope.

(** ** Python values and exceptions *)

(** What [json.loads] can return (floats apart).  A dict is given by its
    items; lookup takes the first item with the key. *)
#[local] Set Warnings "-register-all".
Inductive value : Type :=
| VNone
| VBool (b : bool)
| VInt (n : Z)
| VStr (s : string)
| VList (items : list value)
| VDict (items : list (string * value)).
#[local] Set Warnings "register-all".

Inductive exn : Type :=
| PlainException (msg : string)     (* [Exception(msg)], e.g. a mock's side effect *)
| RequestException (msg : string)   (* transport failure: ConnectionError, Timeout, ... *)
| HTTPError (status : Z)            (* raised by [raise_for_status] *)
| JSONDecodeError                   (* [response.json()] on a body that is not JSON *)
| KeyError (key : string)
| TypeError
| AttributeError
| OverflowError
| ZohoAuthError (cause : exn)       (* [raise ZohoAuthError(...) from cause] *)
| ZohoAPIError (cause : exn)        (* [raise ZohoAPIError(...) from cause] *)
| RetryError (last_attempt : exn).  (* [tenacity.RetryError], last attempt's exception *)

Inductive result (A : Type) : Type :=
| Ok (a : A)
| Raise (e : exn).
Arguments Ok {A} a.
Arguments Raise {A} e.

(** [isinstance(e, requests.exceptions.RequestException)]: the transport
    errors, [HTTPError], and (requests >= 2.27) the JSON decoding error. *)
Definition is_RequestException (e : exn) : bool :=
  match e with
  | RequestException _ | HTTPError _ | JSONDecodeError => true
  | _ => false
  end.

(** [isinstance(e, ZohoAuthError)] and [isinstance(e, ZohoAPIError)]. *)
Definition is_ZohoAuthError (e : exn) : bool :=
  match e with ZohoAuthError _ => true | _ => false end.

Definition is_ZohoAPIError (e : exn) : bool :=
  match e with ZohoAPIError _ => true | _ => false end.

(** Python truth value, as tested by [not x] and [if x:]. *)
Definition truthy (v : value) : bool :=
  match v with
  | VNone => false
  | VBool b => b
  | VInt n => negb (n =? 0)
  | VStr s => negb (String.eqb s EmptyString)
  | VList items => match items with [] => false | _ => true end
  | VDict items => match items with [] => false | _ => true end
  end.

Fixpoint dict_lookup (key : string) (items : list (string * value)) : option value :=
  match items with
  | [] => None
  | (k, v) :: rest => if String.eqb k key then Some v else dict_lookup key rest
  end.

(** [data[key]] for a string key. *)
Definition getitem (data : value) (key : string) : result value :=
  match data with
  | VDict items =>
      match dict_lookup key items with
      | Some v => Ok v
      | None => Raise (KeyError key)
      end
  | _ => Raise TypeError
  end.

(** [data.get(key, default)]. *)
Definition get (data : value) (key : string) (default : value) : result value :=
  match data with
  | VDict items =>
      match dict_lookup key items with
      | Some v => Ok v
      | None => Ok default
      end
  | _ => Raise AttributeError
  end.

(** ** [datetime] and [timedelta]

    A [datetime] is the number of microseconds since 0001-01-01T00:00:00 and
    lies in [0, datetime_max] (9999-12-31T23:59:59.999999); a [timedelta] is a
    number of microseconds whose day count has magnitude at most 999999999. *)

Definition us_per_second : Z := 1000000.
Definition seconds_per_day : Z := 86400.
Definition datetime_max : Z := 3652059 * seconds_per_day * us_per_second - 1.
Definition timedelta_max_days : Z := 999999999.

(** [timedelta(seconds=v)]: an [int] (or a [bool], which is an [int]) is
    accepted when the normalised day count fits; any other value is a
    [TypeError]. *)
Definition timedelta_seconds (v : value) : result Z :=
  let of_int (n : Z) :=
    if (- timedelta_max_days <=? n / seconds_per_day)
       && (n / seconds_per_day <=? timedelta_max_days)
    then Ok (n * us_per_second)
    else Raise OverflowError in
  match v with
  | VInt n => of_int n
  | VBool b => of_int (if b then 1 else 0)
  | _ => Raise TypeError
  end.

(** [t + d] on a [datetime] and a [timedelta]. *)
Definition datetime_add (t d : Z) : result Z :=
  if (0 <=? t + d) && (t + d <=? datetime_max)
  then Ok (t + d)
  else Raise OverflowError.

(** ** [requests] *)

Record Response : Type := {
  status_code : Z;
  json_body : option value   (* [None]: the body is not valid JSON *)
}.

Inductive http_result : Type :=
| Returns (r : Response)
| Fails (e : exn).

(** The statuses for which [raise_for_status] raises: 4xx and 5xx. *)
Definition has_error_status (r : Response) : bool :=
  (400 <=? status_code r) && (status_code r <? 600).

Definition raise_for_status (r : Response) : result unit :=
  if has_error_status r
  then Raise (HTTPError (status_code r))
  else Ok tt.

Definition json (r : Response) : result value :=
  match json_body r with
  | Some v => Ok v
  | None => Raise JSONDecodeError
  end.

(** ** Configuration and the client object *)

Record ZohoConfig : Type := {
  client_id : string;
  client_secret : string;
  refresh_token : string;
  organization_id : string;
  api_base_url : string;
  auth_base_url : string;
  http_proxy : option string;
  https_proxy : option string
}.

Record ZohoBooks : Type := {
  config : ZohoConfig;
  _access_token : value;
  _token_expires_at : option Z
}.

(** ** Settings ([src/config.py])

    [ZohoConfig] is a pydantic (v1) [BaseSettings]: [ZohoConfig()] reads each
    field from the environment variable named by [env_prefix] and the field
    name.  With [case_sensitive = False] pydantic compares lowercased names;
    [env_vars] below is the environment as pydantic then sees it (after
    [load_dotenv()], names lowercased). A field without a default whose
    variable is not set makes the constructor raise [ValidationError], which
    names every such field. Every string is accepted as a value. *)

Inductive settings_error : Type :=
| ValidationError (missing : list string)
| ValueError (cause : settings_error).   (* [raise ValueError(...) from cause] *)

Definition env_prefix : string := "ZOHO_".

(** [str.lower] on the ASCII names of the fields. *)
Definition lower_ascii (c : Ascii.ascii) : Ascii.ascii :=
  let n := Ascii.N_of_ascii c in
  if ((65 <=? n) && (n <=? 90))%N then Ascii.ascii_of_N (n + 32) else c.

Fixpoint lower (s : string) : string :=
  match s with
  | EmptyString => EmptyString
  | String c rest => String (lower_ascii c) (lower rest)
  end.

Definition env_name (field : string) : string := lower (env_prefix +:+ field).

Definition required_fields : list string :=
  ["client_id"; "client_secret"; "refresh_token"; "organization_id"].

Definition is_unset (env_vars : gmap string string) (field : string) : bool :=
  match env_vars !! env_name field with
  | Some _ => false
  | None => true
  end.

(** [ZohoConfig()] (lines 13-33). *)
Definition ZohoConfig_init (env_vars : gmap string string)
    : ZohoConfig + settings_error :=
  match env_vars !! env_name "client_id",
        env_vars !! env_name "client_secret",
        env_vars !! env_name "refresh_token",
        env_vars !! env_name "organization_id" with
  | Some id, Some secret, Some refresh, Some org =>
      inl {| client_id := id;
             client_secret := secret;
             refresh_token := refresh;
             organization_id := org;
             api_base_url :=
               match env_vars !! env_name "api_base_url" with
               | Some url => url
               | None => "https://books.zoho.com/api/v3"
               end;
             auth_base_url :=
               match env_vars !! env_name "auth_base_url" with
               | Some url => url
               | None => "https://accounts.zoho.com/oauth/v2"
               end;
             http_proxy := env_vars !! env_name "http_proxy";
             https_proxy := env_vars !! env_name "https_proxy" |}
  | _, _, _, _ =>
      inr (ValidationError (List.filter (is_unset env_vars) required_fields))
  end.

(** [get_config] (lines 35-51). *)
Definition get_config (env_vars : gmap string string)
    : ZohoConfig + settings_error :=
  match ZohoConfig_init env_vars with
  | inl cfg => inl cfg
  | inr e => inr (ValueError e)
  end.

(** What can come out of [ZohoBooks()] instead of a client. *)
Inductive init_error : Type :=
| ConfigError (e : settings_error)   (* raised by [get_config()] *)
| LogSinkError (e : exn).            (* raised by [logger.add(...)] *)

(** [ZohoBooks.__init__] (lines 30-42): the configuration is read first,
    the token and its expiry start as [None], and the log file sink is added
    last.  [log_sink] is what [logger.add("zoho_integration.log", ...)] does:
    [None] when it adds the sink, [Some e] when it raises [e] (the file
    cannot be opened), in which case no client is built. *)
Definition __init__ (env_vars : gmap string string) (log_sink : option exn)
    : ZohoBooks + init_error :=
  match get_config env_vars with
  | inr e => inr (ConfigError e)
  | inl cfg =>
      let self := {| config := cfg; _access_token := VNone;
                     _token_expires_at := None |} in
      match log_sink with
      | Some e => inr (LogSinkError e)
      | None => inl self
      end
  end.


(** ** The world: object, oracle counters, trace of outgoing calls *)

Inductive event : Type :=
| EvPost (url : string) (params : gmap string string)
| EvRequest (method url : string) (bearer : value)
            (params : option (gmap string string)) (body : option value)
| EvSleep (seconds : Z).

Record Env : Type := {
  clock : nat -> Z;                    (* value of the n-th [datetime.now()] *)
  post_reply : nat -> http_result;     (* outcome of the n-th [requests.post] *)
  request_reply : nat -> http_result   (* outcome of the n-th [requests.request] *)
}.

Record World : Type := {
  this : ZohoBooks;
  now_calls : nat;
  post_calls : nat;
  request_calls : nat;
  trace : list event
}.

Definition M (A : Type) : Type := World -> result A * World.

Definition ret {A} (a : A) : M A := fun w => (Ok a, w).

Definition raise {A} (e : exn) : M A := fun w => (Raise e, w).

Definition bind {A B} (m : M A) (k : A -> M B) : M B :=
  fun w =>
    match m w with
    | (Ok a, w') => k a w'
    | (Raise e, w') => (Raise e, w')
    end.

Definition lift {A} (r : result A) : M A := fun w => (r, w).

(** [try: body / except E as e: handler e], where [catches] is
    [isinstance(_, E)].  The world reached by [body] is kept. *)
Definition try_except {A} (body : M A) (catches : exn -> bool)
    (handler : exn -> M A) : M A :=
  fun w =>
    match body w with
    | (Ok a, w') => (Ok a, w')
    | (Raise e, w') => if catches e then handler e w' else (Raise e, w')
    end.

(** [except Exception]: every modelled exception is an [Exception]. *)
Definition is_Exception (e : exn) : bool := true.

Declare Scope py_scope.
Delimit Scope py_scope with py.
Notation "x <- c ;; k" := (bind c (fun x => k))
  (at level 100, c at next level, right associativity) : py_scope.
Notation "c ;;; k" := (bind c (fun _ => k))
  (at level 100, right associativity) : py_scope.
Local Open Scope py_scope.

Definition get_self : M ZohoBooks := fun w => (Ok (this w), w).

Definition set_access_token (v : value) : M unit :=
  fun w =>
    (Ok tt,
     {| this := {| config := config (this w);
                   _access_token := v;
                   _token_expires_at := _token_expires_at (this w) |};
        now_calls := now_calls w; post_calls := post_calls w;
        request_calls := request_calls w; trace := trace w |}).

Definition set_token_expires_at (t : option Z) : M unit :=
  fun w =>
    (Ok tt,
     {| this := {| config := config (this w);
                   _access_token := _access_token (this w);
                   _token_expires_at := t |};
        now_calls := now_calls w; post_calls := post_calls w;
        request_calls := request_calls w; trace := trace w |}).

(** [time.sleep(seconds)], as called by tenacity between attempts. *)
Definition time_sleep (seconds : Z) : M unit :=
  fun w =>
    (Ok tt,
     {| this := this w; now_calls := now_calls w; post_calls := post_calls w;
        request_calls := request_calls w;
        trace := trace w ++ [EvSleep seconds] |}).

(** ** The methods of [ZohoBooks] *)

Section Client.

Variable env : Env.

(** [datetime.now()] *)
Definition datetime_now : M Z :=
  fun w =>
    (Ok (clock env (now_calls w)),
     {| this := this w; now_calls := S (now_calls w);
        post_calls := post_calls w; request_calls := request_calls w;
        trace := trace w |}).

(** [requests.post(url, params=params)] *)
Definition requests_post (url : string) (params : gmap string string)
    : M Response :=
  fun w =>
    let w' := {| this := this w; now_calls := now_calls w;
                 post_calls := S (post_calls w);
                 request_calls := request_calls w;
                 trace := trace w ++ [EvPost url params] |} in
    match post_reply env (post_calls w) with
    | Returns r => (Ok r, w')
    | Fails e => (Raise e, w')
    end.

(** [requests.request(method=, url=, headers=, params=, json=)]; the
    [Authorization] header is ["Bearer " + str(bearer)]. *)
Definition requests_request (method url : string) (bearer : value)
    (params : option (gmap string string)) (body : option value)
    : M Response :=
  fun w =>
    let w' := {| this := this w; now_calls := now_calls w;
                 post_calls := post_calls w;
                 request_calls := S (request_calls w);
                 trace := trace w ++ [EvRequest method url bearer params body] |} in
    match request_reply env (request_calls w) with
    | Returns r => (Ok r, w')
    | Fails e => (Raise e, w')
    end.

(** Property [_token_expired] (lines 59-64). *)
Definition _token_expired : M bool :=
  self <- get_self ;;
  match _token_expires_at self with
  | None => ret true
  | Some expires_at =>
      now <- datetime_now ;;
      ret (now >=? expires_at)
  end.

(** The query parameters of the token request (lines 76-81). *)
Definition token_request_params (cfg : ZohoConfig) : gmap string string :=
  <["grant_type" := "refresh_token"]>
    (<["client_secret" := client_secret cfg]>
       (<["client_id" := client_id cfg]>
          {["refresh_token" := refresh_token cfg]})).

(** [_refresh_access_token] (lines 66-96). *)
Definition _refresh_access_token : M unit :=
  try_except
    (self <- get_self ;;
     response <- requests_post
       (auth_base_url (config self) +:+ "/token")
       (token_request_params (config self)) ;;
     lift (raise_for_status response) ;;;
     data <- lift (json response) ;;
     token <- lift (getitem data "access_token") ;;
     set_access_token token ;;;
     now <- datetime_now ;;
     expires_in <- lift (get data "expires_in" (VInt 3600)) ;;
     delta <- lift (timedelta_seconds expires_in) ;;
     expires_at <- lift (datetime_add now delta) ;;
     set_token_expires_at (Some expires_at))
    is_Exception
    (fun e => raise (ZohoAuthError e)).

(** Property [access_token] (lines 44-57); [or] does not evaluate
    [_token_expired] when no token is held. *)
Definition access_token : M value :=
  self <- get_self ;;
  stale <- (if negb (truthy (_access_token self)) then ret true
            else _token_expired) ;;
  (if (stale : bool) then _refresh_access_token else ret tt) ;;;
  self <- get_self ;;
  ret (_access_token self).

(** The undecorated body of [_make_request] (lines 124-145): one attempt. *)
Definition _make_request_attempt (method endpoint : string)
    (params : option (gmap string string)) (data : option value) : M value :=
  try_except
    (token <- access_token ;;
     self <- get_self ;;
     response <- requests_request method
       (api_base_url (config self) +:+ "/" +:+ endpoint) token params data ;;
     lift (raise_for_status response) ;;;
     lift (json response))
    is_RequestException
    (fun e => raise (ZohoAPIError e)).

(** *** tenacity *)

(** [stop_after_attempt(max_attempt_number)]: true when the loop must stop. *)
Definition stop_after_attempt (max_attempt_number attempt_number : nat) : bool :=
  (max_attempt_number <=? attempt_number)%nat.

(** [wait_exponential(multiplier, min, max)] with [exp_base = 2]: the sleep
    after attempt [attempt_number] (counted from 1) is
    [max(max(0, min), min(multiplier * 2 ** (attempt_number - 1), max))]. *)
Definition wait_exponential (multiplier min max : Z) (attempt_number : nat) : Z :=
  let exp := 2 ^ (Z.of_nat attempt_number - 1) in
  let result := multiplier * exp in
  Z.max (Z.max 0 min) (Z.min result max).

(** [Retrying.__call__] with the default [retry_if_exception_type()] and
    [reraise=False]: run [fn]; on an exception either give up with
    [RetryError] (when [stop] says so) or sleep and run it again. *)
Equations? Retrying {A : Type} (max_attempt_number : nat) (wait : nat -> Z)
    (fn : M A) (attempt_number : nat) (w : World)
    : result A * World by wf (max_attempt_number - attempt_number)%nat lt :=
  Retrying max_attempt_number wait fn attempt_number w with fn w => {
    | pair (Ok a) w1 := (Ok a, w1);
    | pair (Raise e) w1
        with inspect (stop_after_attempt max_attempt_number attempt_number) => {
        | exist _ true _ := (Raise (RetryError e), w1);
        | exist _ false Hgo :=
            Retrying max_attempt_number wait fn (S attempt_number)
                     (snd (time_sleep (wait attempt_number) w1)) } }.
Proof.
  unfold stop_after_attempt in Hgo.
  apply Nat.leb_gt in Hgo. lia.
Qed.

(** [_make_request] as decorated (lines 98-101). *)
Definition _make_request (method endpoint : string)
    (params : option (gmap string string)) (data : option value) : M value :=
  Retrying 3 (wait_exponential 1 4 10)
           (_make_request_attempt method endpoint params data) 1.

(** The query parameters built by [get_invoices] (lines 164-173). *)
Definition set_if_given (key : string) (arg : option string)
    (params : gmap string string) : gmap string string :=
  match arg with
  | Some s => if negb (String.eqb s EmptyString) then <[key := s]> params else params
  | None => params
  end.

Definition invoice_params (self : ZohoBooks)
    (from_date to_date status : option string) : gmap string string :=
  set_if_given "status" status
    (set_if_given "date_end" to_date
       (set_if_given "date_start" from_date
          {["organization_id" := organization_id (config self)]})).

(** [get_invoices] (lines 147-183). *)
Definition get_invoices (from_date to_date status : option string) : M value :=
  self <- get_self ;;
  response <- _make_request "GET" "invoices"
    (Some (invoice_params self from_date to_date status)) None ;;
  lift (get response "invoices" (VList [])).

End Client.

Arguments token_request_params : simpl never.
Arguments invoice_params : simpl never.

(** ** Terms in which the properties are stated *)

(** The integer a value stands for where Python wants an [int]. *)
Definition as_int (v : value) : option Z :=
  match v with
  | VInt n => Some n
  | VBool b => Some (if b then 1 else 0)
  | _ => None
  end.

(** The items of a reply whose body is a JSON object. *)
Definition payload_items (r : Response) : option (list (string * value)) :=
  match json_body r with
  | Some (VDict items) => Some items
  | _ => None
  end.

(** The [access_token] field of a reply, when its body is an object that has one. *)
Definition payload_access_token (r : Response) : option value :=
  match payload_items r with
  | Some items => dict_lookup "access_token" items
  | None => None
  end.

(** The [expires_in] field of an object, 3600 when the object omits it. *)
Definition expires_in_or_default (items : list (string * value)) : value :=
  match dict_lookup "expires_in" items with
  | Some v => v
  | None => VInt 3600
  end.

(** [now + timedelta(seconds=expires_in)] *)
Definition new_expiry (now : Z) (expires_in : value) : result Z :=
  match timedelta_seconds expires_in with
  | Ok delta => datetime_add now delta
  | Raise e => Raise e
  end.

(** A token is held when [self._access_token] is truthy: neither [None]
    nor empty. *)
Definition token_held (self : ZohoBooks) : bool := truthy (_access_token self).

(** The cause of a resource call that fails in transport or by its status. *)
Definition transport_or_status_failure (h : http_result) : option exn :=
  match h with
  | Fails (RequestException msg) => Some (RequestException msg)
  | Fails _ => None
  | Returns r =>
      if has_error_status r then Some (HTTPError (status_code r)) else None
  end.

(** The delays slept, and the query parameters sent, in a trace. *)
Definition sleeps (tr : list event) : list Z :=
  flat_map (fun ev => match ev with EvSleep s => [s] | _ => [] end) tr.

Definition sent_params (tr : list event) : list (option (gmap string string)) :=
  flat_map (fun ev => match ev with
                      | EvRequest _ _ _ params _ => [params]
                      | _ => []
                      end) tr.

(** The world after the token request of a refresh has gone out. *)
Definition posted (w : World) : World :=
  {| this := this w; now_calls := now_calls w; post_calls := S (post_calls w);
     request_calls := request_calls w;
     trace := trace w ++ [EvPost (auth_base_url (config (this w)) +:+ "/token")
                                 (token_request_params (config (this w)))] |}.

(** The object with a new token, and with a new token and expiry. *)
Definition with_token (self : ZohoBooks) (token : value) : ZohoBooks :=
  {| config := config self; _access_token := token;
     _token_expires_at := _token_expires_at self |}.

Definition with_token_pair (self : ZohoBooks) (token : value) (expires_at : Z)
    : ZohoBooks :=
  {| config := config self; _access_token := token;
     _token_expires_at := Some expires_at |}.


(** [ev], if it is a resource request, is this one. *)
Definition is_request_to (method url : string)
    (params : option (gmap string string)) (body : option value)
    (ev : event) : Prop :=
  match ev with
  | EvRequest m u _ p b => m = method /\ u = url /\ p = params /\ b = body
  | EvPost _ _ | EvSleep _ => True
  end.

(** From [w] to [w'] the configuration [cfg] stayed and the trace grew by
    events that satisfy [Q]. *)
Definition grows_by (cfg : ZohoConfig) (Q : event -> Prop) (w w' : World) : Prop :=
  config (this w) = cfg ->
  config (this w') = cfg /\
  exists evs, trace w' = trace w ++ evs /\ Forall Q evs.


(** The world after a resource request went out with the held token. *)
Definition requested (method endpoint : string)
    (params : option (gmap string string)) (body : option value)
    (w : World) : World :=
  {| this := this w; now_calls := S (now_calls w); post_calls := post_calls w;
     request_calls := S (request_calls w);
     trace := trace w ++
              [EvRequest method (api_base_url (config (this w)) +:+ "/" +:+ endpoint)
                         (_access_token (this w)) params body] |}.

(** The cause with which a token request fails before anything is stored. *)
Definition token_request_failure (h : http_result) : option exn :=
  match h with
  | Fails e => Some e
  | Returns r =>
      if has_error_status r then Some (HTTPError (status_code r))
      else match json_body r with
           | None => Some JSONDecodeError
           | Some (VDict items) =>
               match dict_lookup "access_token" items with
               | Some _ => None
               | None => Some (KeyError "access_token")
               end
           | Some _ => Some TypeError
           end
  end.

(** The body of a resource reply that makes an attempt succeed. *)
Definition parsed_body (h : http_result) : option value :=
  match h with
  | Returns r => if has_error_status r then None else json_body r
  | Fails _ => None
  end.

(** The token requests in a trace. *)
Definition token_requests (tr : list event) : list (string * gmap string string) :=
  flat_map (fun ev => match ev with
                      | EvPost url params => [(url, params)]
                      | _ => []
                      end) tr.

(** ** Fixtures, after [tests/test_zoho_integration.py] *)

Definition mock_config : ZohoConfig :=
  {| client_id := "test_client_id"; client_secret := "test_client_secret";
     refresh_token := "test_refresh_token"; organization_id := "test_org_id";
     api_base_url := "https://books.zoho.com/api/v3";
     auth_base_url := "https://accounts.zoho.com/oauth/v2";
     http_proxy := None; https_proxy := None |}.

(** The fixture [zoho_books]: [ZohoBooks()] with [get_config] patched to
    return [mock_config]. *)
Definition zoho_books : ZohoBooks :=
  {| config := mock_config; _access_token := VNone; _token_expires_at := None |}.

(** A world in which nothing has been called yet. *)
Definition start (self : ZohoBooks) : World :=
  {| this := self; now_calls := 0; post_calls := 0; request_calls := 0;
     trace := [] |}.

(** An outside world that always answers the same. *)
Definition steady_env (now : Z) (post request : http_result) : Env :=
  {| clock := fun _ => now;
     post_reply := fun _ => post;
     request_reply := fun _ => request |}.

Definition reply (status : Z) (body : value) : http_result :=
  Returns {| status_code := status; json_body := Some body |}.

(** 2024-01-15T00:00:00 in microseconds. *)
Definition a_day_in_2024 : Z := 738899 * seconds_per_day * us_per_second.

(** A token endpoint that answers 200 with the given JSON object, while the
    resource endpoint cannot be reached. *)
Definition answering (items : list (string * value)) : Env :=
  steady_env a_day_in_2024 (reply 200 (VDict items))
             (Fails (RequestException "unreachable")).

(** The client of [test_make_request_success] and
    [test_make_request_failure]: a token good for another hour. *)
Definition with_test_token : ZohoBooks :=
  {| config := mock_config; _access_token := VStr "test_token";
     _token_expires_at := Some (a_day_in_2024 + 3600 * us_per_second) |}.

(** Neither endpoint can be reached. *)
Definition unreachable : Env :=
  steady_env a_day_in_2024 (Fails (RequestException "connection refused"))
             (Fails (RequestException "connection refused")).

(** Both endpoints answer 200: the token endpoint with a fresh token, the
    resource endpoint with [body]. *)
Definition serving (body : value) : Env :=
  steady_env a_day_in_2024
    (reply 200 (VDict [("access_token", VStr "new_token");
                       ("expires_in", VInt 3600)]))
    (reply 200 body).

(** A resource endpoint that times out once and answers 200 with [body]
    from then on. *)
Definition flaky (body : value) : Env :=
  {| clock := fun _ => a_day_in_2024;
     post_reply := fun _ => Fails (RequestException "connection refused");
     request_reply := fun n =>
       match n with
       | O => Fails (RequestException "timeout")
       | S _ => reply 200 body
       end |}.

(** As [flaky], but the clock passes the expiry of [with_test_token] after
    its first reading, and the token endpoint hands out a new token. *)
Definition expiring (body : value) : Env :=
  {| clock := fun n =>
       match n with
       | O => a_day_in_2024
       | S _ => a_day_in_2024 + 7200 * us_per_second
       end;
     post_reply := fun _ =>
       reply 200 (VDict [("access_token", VStr "new_token");
                         ("expires_in", VInt 3600)]);
     request_reply := request_reply (flaky body) |}.

(** An environment with the four required settings and nothing else. *)
Definition test_environ : gmap string string :=
  <["zoho_organization_id" := "test_org_id"]>
    (<["zoho_refresh_token" := "test_refresh_token"]>
       (<["zoho_client_secret" := "test_client_secret"]>
          {["zoho_client_id" := "test_client_id"]})).

(** ** Properties *)

Ltac unfold_py :=
  unfold bind, ret, raise, lift, try_except, get_self, set_access_token,
    set_token_expires_at, datetime_now, requests_post, requests_request,
    is_Exception in *.

Lemma Retrying_step {A} (max_attempt_number : nat) (wait : nat -> Z)
    (fn : M A) (attempt_number : nat) (w : World) :
  Retrying max_attempt_number wait fn attempt_number w =
  match fn w with
  | (Ok a, w1) => (Ok a, w1)
  | (Raise e, w1) =>
      if stop_after_attempt max_attempt_number attempt_number
      then (Raise (RetryError e), w1)
      else Retrying max_attempt_number wait fn (S attempt_number)
                    (snd (time_sleep (wait attempt_number) w1))
  end.
Proof.
  rewrite Retrying_unfold_eq. unfold Retrying_unfold.
  destruct (fn w) as [[a|e] w1]; simpl; [reflexivity|].
  destruct (stop_after_attempt max_attempt_number attempt_number); reflexivity.
Qed.

Section Refresh.

Variable env : Env.

(** The token request fails in transport: nothing is stored. *)
Lemma refresh_transport_failure (w : World) (e : exn) :
  post_reply env (post_calls w) = Fails e ->
  _refresh_access_token env w = (Raise (ZohoAuthError e), posted w).
Proof.
  intros H. unfold _refresh_access_token. unfold_py. rewrite H. reflexivity.
Qed.

(** The token endpoint answers with an error status: nothing is stored. *)
Lemma refresh_error_status (w : World) (r : Response) :
  post_reply env (post_calls w) = Returns r ->
  has_error_status r = true ->
  _refresh_access_token env w =
  (Raise (ZohoAuthError (HTTPError (status_code r))), posted w).
Proof.
  intros H Hs. unfold _refresh_access_token, raise_for_status. unfold_py.
  rewrite H, Hs. reflexivity.
Qed.

(** The body is not a JSON object with an [access_token]: nothing is stored. *)
Lemma refresh_no_access_token (w : World) (r : Response) :
  post_reply env (post_calls w) = Returns r ->
  has_error_status r = false ->
  payload_access_token r = None ->
  exists cause,
    _refresh_access_token env w = (Raise (ZohoAuthError cause), posted w).
Proof.
  intros H Hs Ht.
  unfold _refresh_access_token, raise_for_status, json, getitem. unfold_py.
  rewrite H, Hs.
  unfold payload_access_token, payload_items in Ht.
  destruct (json_body r) as [[]|]; try (eexists; reflexivity).
  rewrite Ht. eexists; reflexivity.
Qed.

(** The body carries an [access_token]: it is stored at once, and the expiry
    only if [now + timedelta(seconds=expires_in)] can be computed. *)
Lemma refresh_with_access_token (w : World) (r : Response)
    (items : list (string * value)) (token : value) :
  post_reply env (post_calls w) = Returns r ->
  has_error_status r = false ->
  json_body r = Some (VDict items) ->
  dict_lookup "access_token" items = Some token ->
  _refresh_access_token env w =
  match new_expiry (clock env (now_calls w)) (expires_in_or_default items) with
  | Ok expires_at =>
      (Ok tt,
       {| this := with_token_pair (this w) token expires_at;
          now_calls := S (now_calls w); post_calls := S (post_calls w);
          request_calls := request_calls w; trace := trace (posted w) |})
  | Raise cause =>
      (Raise (ZohoAuthError cause),
       {| this := with_token (this w) token;
          now_calls := S (now_calls w); post_calls := S (post_calls w);
          request_calls := request_calls w; trace := trace (posted w) |})
  end.
Proof.
  intros H Hs Hb Ht.
  unfold _refresh_access_token, raise_for_status, json, getitem, get. unfold_py.
  rewrite H, Hs, Hb, Ht. cbn [this config _access_token _token_expires_at
    now_calls post_calls request_calls trace].
  unfold new_expiry, expires_in_or_default.
  destruct (dict_lookup "expires_in" items) as [v|];
    [destruct (timedelta_seconds v) as [d|c]
    |destruct (timedelta_seconds (VInt 3600)) as [d|c]];
    try reflexivity;
    destruct (datetime_add (clock env (now_calls w)) d); reflexivity.
Qed.

(** The four ways a token request can go. *)
Lemma refresh_cases (w : World) :
  (exists e, post_reply env (post_calls w) = Fails e) \/
  (exists r, post_reply env (post_calls w) = Returns r /\
             has_error_status r = true) \/
  (exists r, post_reply env (post_calls w) = Returns r /\
             has_error_status r = false /\ payload_access_token r = None) \/
  (exists r items token,
      post_reply env (post_calls w) = Returns r /\
      has_error_status r = false /\
      json_body r = Some (VDict items) /\
      dict_lookup "access_token" items = Some token).
Proof.
  destruct (post_reply env (post_calls w)) as [r|e]; [|left; eauto].
  right. destruct (has_error_status r) eqn:Hs; [left; eauto|].
  right. destruct (payload_access_token r) as [token|] eqn:Ht; [|left; eauto].
  right. unfold payload_access_token, payload_items in Ht.
  destruct (json_body r) as [[]|] eqn:Hb; try discriminate.
  exists r, items, token. auto.
Qed.

(** Whatever happens, a refresh sends exactly one token request, no resource
    request, and keeps the configuration. *)
Lemma refresh_world (w : World) :
  post_calls (snd (_refresh_access_token env w)) = S (post_calls w) /\
  request_calls (snd (_refresh_access_token env w)) = request_calls w /\
  trace (snd (_refresh_access_token env w)) = trace (posted w) /\
  config (this (snd (_refresh_access_token env w))) = config (this w).
Proof.
  destruct (refresh_cases w)
    as [[e H]|[(r & H & Hs)|[(r & H & Hs & Ht)|(r & items & token & H & Hs & Hb & Ht)]]].
  - rewrite (refresh_transport_failure w e H). auto.
  - rewrite (refresh_error_status w r H Hs). auto.
  - destruct (refresh_no_access_token w r H Hs Ht) as [c ->]. auto.
  - rewrite (refresh_with_access_token w r items token H Hs Hb Ht).
    destruct (new_expiry _ _); auto.
Qed.

(** Every exception that leaves a refresh is a [ZohoAuthError]. *)
Lemma refresh_raises_auth_error (w : World) (e : exn) :
  fst (_refresh_access_token env w) = Raise e ->
  exists cause, e = ZohoAuthError cause.
Proof.
  destruct (refresh_cases w)
    as [[e' H]|[(r & H & Hs)|[(r & H & Hs & Ht)|(r & items & token & H & Hs & Hb & Ht)]]].
  - rewrite (refresh_transport_failure w e' H). simpl. intros [= <-]. eauto.
  - rewrite (refresh_error_status w r H Hs). simpl. intros [= <-]. eauto.
  - destruct (refresh_no_access_token w r H Hs Ht) as [c ->].
    simpl. intros [= <-]. eauto.
  - rewrite (refresh_with_access_token w r items token H Hs Hb Ht).
    destruct (new_expiry _ _); simpl; [discriminate|]. intros [= <-]. eauto.
Qed.

(** [new_expiry] on an integer number of seconds. *)
Lemma new_expiry_int (now : Z) (v : value) (expires_at : Z) :
  new_expiry now v = Ok expires_at ->
  exists n, as_int v = Some n /\ expires_at = now + n * us_per_second.
Proof.
  unfold new_expiry, timedelta_seconds, datetime_add, as_int.
  destruct v; try discriminate.
  - destruct (_ && _); [|discriminate].
    destruct (_ && _); [|discriminate]. intros [= <-]. eauto.
  - destruct (_ && _); [|discriminate].
    destruct (_ && _); [|discriminate]. intros [= <-]. eauto.
Qed.

Lemma new_expiry_in_range (now : Z) (v : value) (n : Z) :
  as_int v = Some n ->
  - timedelta_max_days * seconds_per_day <= n
    < (timedelta_max_days + 1) * seconds_per_day ->
  0 <= now + n * us_per_second <= datetime_max ->
  new_expiry now v = Ok (now + n * us_per_second).
Proof.
  intros Hv Hn Ht.
  assert (Hd : (- timedelta_max_days <=? n / seconds_per_day)
               && (n / seconds_per_day <=? timedelta_max_days) = true).
  { apply andb_true_intro. unfold seconds_per_day, timedelta_max_days in *.
    split; apply Z.leb_le.
    - apply Z.div_le_lower_bound; lia.
    - apply Z.lt_succ_r, Z.div_lt_upper_bound; lia. }
  assert (Ha : (0 <=? now + n * us_per_second)
               && (now + n * us_per_second <=? datetime_max) = true).
  { apply andb_true_intro. split; apply Z.leb_le; lia. }
  unfold new_expiry, timedelta_seconds, datetime_add.
  destruct v; simpl in Hv; try discriminate; injection Hv as ->;
    rewrite Hd, Ha; reflexivity.
Qed.

End Refresh.

(** *** The expiry test and the accessor *)

Lemma token_expired_run (env : Env) (w : World) :
  _token_expired env w =
  match _token_expires_at (this w) with
  | None => (Ok true, w)
  | Some expires_at =>
      (Ok (expires_at <=? clock env (now_calls w)),
       {| this := this w; now_calls := S (now_calls w);
          post_calls := post_calls w; request_calls := request_calls w;
          trace := trace w |})
  end.
Proof.
  unfold _token_expired. unfold_py.
  destruct (_token_expires_at (this w)); [|reflexivity].
  cbn [now_calls]. rewrite Z.geb_leb. reflexivity.
Qed.

(** The accessor when no refresh is due: the stored token, untouched. *)
Lemma access_token_fresh (env : Env) (w : World) (expires_at : Z) :
  token_held (this w) = true ->
  _token_expires_at (this w) = Some expires_at ->
  clock env (now_calls w) < expires_at ->
  access_token env w =
  (Ok (_access_token (this w)),
   {| this := this w; now_calls := S (now_calls w);
      post_calls := post_calls w; request_calls := request_calls w;
      trace := trace w |}).
Proof.
  intros Hh He Hlt. unfold access_token, bind at 1 2.
  unfold get_self at 1. unfold token_held in Hh. rewrite Hh. cbn [negb].
  rewrite token_expired_run, He.
  replace (expires_at <=? clock env (now_calls w)) with false
    by (symmetry; apply Z.leb_gt; exact Hlt).
  reflexivity.
Qed.

(** The accessor when a refresh is due: it runs the refresh from [w1], the
    world after the expiry test, and returns what the refresh stored. *)
Lemma access_token_stale (env : Env) (w : World) :
  token_held (this w) = false \/ fst (_token_expired env w) = Ok true ->
  exists w1,
    this w1 = this w /\ post_calls w1 = post_calls w /\
    request_calls w1 = request_calls w /\ trace w1 = trace w /\
    access_token env w =
    match _refresh_access_token env w1 with
    | (Ok _, w2) => (Ok (_access_token (this w2)), w2)
    | (Raise e, w2) => (Raise e, w2)
    end.
Proof.
  intros Hstale. unfold access_token, bind at 1 2. unfold get_self at 1.
  unfold token_held in Hstale.
  destruct (truthy (_access_token (this w))) eqn:Hh; cbn [negb].
  - destruct Hstale as [Hf|Hx]; [discriminate|].
    destruct (_token_expired env w) as [[b|e] w1] eqn:Hrun;
      simpl in Hx; [|discriminate].
    injection Hx as ->.
    exists w1. rewrite token_expired_run in Hrun.
    assert (Hw1 : w1 = snd (_token_expired env w)).
    { rewrite token_expired_run, Hrun. reflexivity. }
    rewrite token_expired_run in Hw1.
    destruct (_token_expires_at (this w)); subst w1;
      do 4 (split; [reflexivity|]);
      unfold bind, get_self, ret;
      destruct (_refresh_access_token env _) as [[[]|e] w2]; reflexivity.
  - exists w. do 4 (split; [reflexivity|]).
    unfold ret at 1. unfold bind, get_self, ret.
    destruct (_refresh_access_token env w) as [[[]|e] w2]; reflexivity.
Qed.

Lemma token_expired_true_iff (env : Env) (w : World) :
  fst (_token_expired env w) = Ok true <->
  _token_expires_at (this w) = None \/
  exists expires_at,
    _token_expires_at (this w) = Some expires_at /\
    expires_at <= clock env (now_calls w).
Proof.
  rewrite token_expired_run.
  destruct (_token_expires_at (this w)) as [t|]; cbn [fst]; split.
  - intros [= H]. right. exists t. split; [reflexivity|]. apply Z.leb_le, H.
  - intros [H|(t' & [= <-] & H)]; [discriminate|]. f_equal. apply Z.leb_le, H.
  - intros _. left. reflexivity.
  - reflexivity.
Qed.

Lemma token_expired_false_iff (env : Env) (w : World) :
  fst (_token_expired env w) = Ok false <->
  exists expires_at,
    _token_expires_at (this w) = Some expires_at /\
    expires_at > clock env (now_calls w).
Proof.
  rewrite token_expired_run.
  destruct (_token_expires_at (this w)) as [t|]; cbn [fst]; split.
  - intros [= H]. exists t. split; [reflexivity|]. apply Z.leb_gt in H. lia.
  - intros (t' & [= <-] & H). f_equal. apply Z.leb_gt. lia.
  - discriminate.
  - intros (t' & [=] & _).
Qed.

(** The expiry test never raises. *)
Lemma token_expired_total (env : Env) (w : World) :
  fst (_token_expired env w) = Ok true \/ fst (_token_expired env w) = Ok false.
Proof.
  rewrite token_expired_run.
  destruct (_token_expires_at (this w)) as [t|]; cbn [fst]; [|auto].
  destruct (t <=? clock env (now_calls w)); auto.
Qed.

(** C3. The held token is reported expired exactly when no expiry is set or
    the expiry is at or before the current time (so it is usable exactly when
    the expiry lies after it); [access_token] sends a refresh before it
    returns exactly when no token is held or the held token is expired, and
    otherwise returns the stored token, the object and the trace unchanged. *)
Theorem access_token_refreshes_iff_stale (env : Env) (w : World) :
  let now := clock env (now_calls w) in
  let stale := token_held (this w) = false \/
               fst (_token_expired env w) = Ok true in
  (fst (_token_expired env w) = Ok true <->
     _token_expires_at (this w) = None \/
     exists expires_at,
       _token_expires_at (this w) = Some expires_at /\ expires_at <= now) /\
  (fst (_token_expired env w) = Ok false <->
     exists expires_at,
       _token_expires_at (this w) = Some expires_at /\ expires_at > now) /\
  (stale ->
     post_calls (snd (access_token env w)) = S (post_calls w) /\
     exists w1,
       this w1 = this w /\ trace w1 = trace w /\
       access_token env w =
       match _refresh_access_token env w1 with
       | (Ok _, w2) => (Ok (_access_token (this w2)), w2)
       | (Raise e, w2) => (Raise e, w2)
       end) /\
  (~ stale ->
     fst (access_token env w) = Ok (_access_token (this w)) /\
     this (snd (access_token env w)) = this w /\
     post_calls (snd (access_token env w)) = post_calls w /\
     trace (snd (access_token env w)) = trace w).
Proof.
  intros now stale. subst now stale.
  split; [apply token_expired_true_iff|].
  split; [apply token_expired_false_iff|].
  split.
  - intros Hstale.
    destruct (access_token_stale env w Hstale)
      as (w1 & Hthis & Hposts & _ & Htrace & Hrun).
    split; [|exists w1; auto].
    rewrite Hrun. pose proof (refresh_world env w1) as (Hpc & _).
    destruct (_refresh_access_token env w1) as [[[]|e] w2];
      simpl in *; congruence.
  - intros Hfresh.
    assert (Hheld : token_held (this w) = true).
    { destruct (token_held (this w)); [reflexivity|].
      exfalso. apply Hfresh. left. reflexivity. }
    assert (Hnot : fst (_token_expired env w) = Ok false).
    { destruct (token_expired_total env w) as [H|H]; [|exact H].
      exfalso. apply Hfresh. right. exact H. }
    apply token_expired_false_iff in Hnot as (t & He & Hlt).
    rewrite (access_token_fresh env w t Hheld He); [|lia].
    repeat split.
Qed.

Lemma access_token_refreshes_iff_stale_witness :
  post_calls (snd (access_token unreachable (start zoho_books))) = 1%nat /\
  fst (access_token unreachable (start with_test_token)) = Ok (VStr "test_token").
Proof.
  split.
  - exact (proj1 (proj1 (proj2 (proj2 (access_token_refreshes_iff_stale
                                         unreachable (start zoho_books))))
                        (or_introl eq_refl))).
  - apply (proj2 (proj2 (proj2 (access_token_refreshes_iff_stale
                                  unreachable (start with_test_token))))).
    intros [H|H]; discriminate H.
Defined.

(** *** Refresh *)

(** What a successful refresh has stored. *)
Lemma refresh_success_state (env : Env) (w : World) (r : Response)
    (items : list (string * value)) (token : value) :
  post_reply env (post_calls w) = Returns r ->
  json_body r = Some (VDict items) ->
  dict_lookup "access_token" items = Some token ->
  fst (_refresh_access_token env w) = Ok tt ->
  exists n,
    as_int (expires_in_or_default items) = Some n /\
    _access_token (this (snd (_refresh_access_token env w))) = token /\
    _token_expires_at (this (snd (_refresh_access_token env w))) =
      Some (clock env (now_calls w) + n * us_per_second).
Proof.
  intros H Hb Ht.
  destruct (has_error_status r) eqn:Hs.
  { rewrite (refresh_error_status env w r H Hs). discriminate. }
  rewrite (refresh_with_access_token env w r items token H Hs Hb Ht).
  destruct (new_expiry _ _) as [t|c] eqn:Hx; [|discriminate].
  intros _. apply new_expiry_int in Hx as (n & Hn & ->).
  exists n. auto.
Qed.

(** C2, as stated, does not hold: when the reply carries an [access_token] but
    an [expires_in] that is no number, the refresh fails after the token has
    been stored and before the expiry is; the pair is half updated. *)
Lemma refresh_failure_can_store_token_alone :
  ~ (forall (env : Env) (w : World) (e : exn),
       fst (_refresh_access_token env w) = Raise e ->
       _access_token (this (snd (_refresh_access_token env w))) =
         _access_token (this w) /\
       _token_expires_at (this (snd (_refresh_access_token env w))) =
         _token_expires_at (this w)).
Proof.
  intros H.
  destruct (H (answering [("access_token", VStr "T"); ("expires_in", VStr "soon")])
              (start zoho_books) (ZohoAuthError TypeError) eq_refl) as [Htoken _].
  vm_compute in Htoken. discriminate.
Qed.

(** C2, amended. Every failed refresh raises [ZohoAuthError] wrapping its
    cause. When it fails in transport, by an error status, or because the
    body is no JSON object with an [access_token], the stored token and expiry
    are both as before. A successful refresh replaces both. *)
Theorem refresh_failure_keeps_token_pair (env : Env) (w : World) :
  let h := post_reply env (post_calls w) in
  let out := _refresh_access_token env w in
  (forall e, fst out = Raise e -> exists cause, e = ZohoAuthError cause) /\
  (forall e, h = Fails e ->
     fst out = Raise (ZohoAuthError e) /\ this (snd out) = this w) /\
  (forall r, h = Returns r -> has_error_status r = true ->
     fst out = Raise (ZohoAuthError (HTTPError (status_code r))) /\
     this (snd out) = this w) /\
  (forall r, h = Returns r -> payload_access_token r = None ->
     (exists cause, fst out = Raise (ZohoAuthError cause)) /\
     this (snd out) = this w) /\
  (fst out = Ok tt ->
     exists token expires_at,
       this (snd out) = with_token_pair (this w) token expires_at).
Proof.
  intros h out. subst h out. repeat apply conj.
  - apply refresh_raises_auth_error.
  - intros e H. rewrite (refresh_transport_failure env w e H). auto.
  - intros r H Hs. rewrite (refresh_error_status env w r H Hs). auto.
  - intros r H Ht. destruct (has_error_status r) eqn:Hs.
    + rewrite (refresh_error_status env w r H Hs). eauto.
    + destruct (refresh_no_access_token env w r H Hs Ht) as [c ->]. eauto.
  - destruct (refresh_cases env w)
      as [[e H]|[(r & H & Hs)|[(r & H & Hs & Ht)|(r & items & token & H & Hs & Hb & Ht)]]].
    + rewrite (refresh_transport_failure env w e H). discriminate.
    + rewrite (refresh_error_status env w r H Hs). discriminate.
    + destruct (refresh_no_access_token env w r H Hs Ht) as [c ->]. discriminate.
    + rewrite (refresh_with_access_token env w r items token H Hs Hb Ht).
      destruct (new_expiry _ _) as [t|c]; [|discriminate]. eauto.
Qed.

Lemma refresh_failure_keeps_token_pair_witness :
  let env := steady_env a_day_in_2024 (Fails (PlainException "API Error"))
                        (Fails (PlainException "API Error")) in
  fst (_refresh_access_token env (start zoho_books)) =
    Raise (ZohoAuthError (PlainException "API Error")) /\
  this (snd (_refresh_access_token env (start zoho_books))) = zoho_books.
Proof.
  intros env.
  exact (proj1 (proj2 (refresh_failure_keeps_token_pair env (start zoho_books)))
               (PlainException "API Error") eq_refl).
Defined.

(** C4. When the reply carries access_token [token], a refresh that succeeds
    stores [token] and the expiry [now + expires_in] seconds, [expires_in]
    being 3600 when the reply omits it; and the refresh does succeed when the
    status is no error and that expiry is a representable date. *)
Theorem refresh_success_stores_token_and_expiry (env : Env) (w : World)
    (r : Response) (items : list (string * value)) (token : value) :
  post_reply env (post_calls w) = Returns r ->
  json_body r = Some (VDict items) ->
  dict_lookup "access_token" items = Some token ->
  let now := clock env (now_calls w) in
  let out := _refresh_access_token env w in
  (fst out = Ok tt ->
     exists n,
       as_int (expires_in_or_default items) = Some n /\
       _access_token (this (snd out)) = token /\
       _token_expires_at (this (snd out)) = Some (now + n * us_per_second)) /\
  (forall n,
     has_error_status r = false ->
     as_int (expires_in_or_default items) = Some n ->
     - timedelta_max_days * seconds_per_day <= n
       < (timedelta_max_days + 1) * seconds_per_day ->
     0 <= now + n * us_per_second <= datetime_max ->
     fst out = Ok tt) /\
  (dict_lookup "expires_in" items = None ->
     as_int (expires_in_or_default items) = Some 3600).
Proof.
  intros H Hb Ht now out. subst now out. repeat apply conj.
  - apply (refresh_success_state env w r items token H Hb Ht).
  - intros n Hs Hn Hrange Hdate.
    rewrite (refresh_with_access_token env w r items token H Hs Hb Ht).
    rewrite (new_expiry_in_range _ _ n Hn Hrange Hdate). reflexivity.
  - unfold expires_in_or_default. intros ->. reflexivity.
Qed.

Lemma refresh_success_stores_token_and_expiry_witness :
  let env := answering [("access_token", VStr "T"); ("expires_in", VInt 3600)] in
  let out := _refresh_access_token env (start zoho_books) in
  fst out = Ok tt /\
  exists n,
    Some 3600 = Some n /\
    _access_token (this (snd out)) = VStr "T" /\
    _token_expires_at (this (snd out)) =
      Some (a_day_in_2024 + n * us_per_second).
Proof.
  intros env out.
  pose proof (refresh_success_stores_token_and_expiry env (start zoho_books)
                {| status_code := 200;
                   json_body := Some (VDict [("access_token", VStr "T");
                                             ("expires_in", VInt 3600)]) |}
                _ (VStr "T") eq_refl eq_refl eq_refl) as (Hstate & Hruns & _).
  assert (Hok : fst out = Ok tt).
  { apply (Hruns 3600); [reflexivity|reflexivity|vm_compute|vm_compute];
      split; congruence. }
  split; [exact Hok|exact (Hstate Hok)].
Defined.

(** C8, as stated, does not hold: a reply that is reached, has status 200 and
    carries an [access_token] still makes the refresh raise [ZohoAuthError]
    when its [expires_in] cannot be turned into an expiry. *)
Lemma refresh_raises_on_unusable_expires_in :
  ~ (forall (env : Env) (w : World),
       (exists cause,
           fst (_refresh_access_token env w) = Raise (ZohoAuthError cause)) <->
       (exists e, post_reply env (post_calls w) = Fails e) \/
       (exists r, post_reply env (post_calls w) = Returns r /\
                  (has_error_status r = true \/ payload_access_token r = None))).
Proof.
  intros H.
  destruct (proj1 (H (answering [("access_token", VStr "T");
                                 ("expires_in", VStr "soon")])
                     (start zoho_books)))
    as [[e He]|(r & Hr & [Hs|Ht])].
  - exists TypeError. reflexivity.
  - discriminate He.
  - injection Hr as <-. discriminate Hs.
  - injection Hr as <-. discriminate Ht.
Qed.

(** C8, amended. A refresh raises exactly when the token endpoint cannot be
    reached, answers with an error status (4xx or 5xx), answers with a body
    that is no JSON object with an [access_token], or answers with an
    [expires_in] from which Python cannot compute the expiry:
    [timedelta(seconds=expires_in)] or its addition to [now] raises.  What
    the refresh raises is a [ZohoAuthError], and in all other cases it
    succeeds.  (The values here are those without a fraction; Python computes
    an expiry from a finite fractional [expires_in] as it does from an
    integer, so that such a reply is among the other cases.) *)
Theorem refresh_raises_iff (env : Env) (w : World) :
  let h := post_reply env (post_calls w) in
  let now := clock env (now_calls w) in
  let out := _refresh_access_token env w in
  ((exists e, fst out = Raise e) <->
     (exists e, h = Fails e) \/
     (exists r, h = Returns r /\
        (has_error_status r = true \/
         payload_access_token r = None \/
         exists items cause,
           payload_items r = Some items /\
           new_expiry now (expires_in_or_default items) = Raise cause))) /\
  (forall e, fst out = Raise e -> is_ZohoAuthError e = true) /\
  ((~ exists e, fst out = Raise e) -> fst out = Ok tt).
Proof.
  intros h now out. subst h now out. split; [|split].
  - destruct (refresh_cases env w)
      as [[e H]|[(r & H & Hs)|[(r & H & Hs & Ht)|(r & items & token & H & Hs & Hb & Ht)]]].
    + rewrite (refresh_transport_failure env w e H). split; eauto.
    + rewrite (refresh_error_status env w r H Hs). split; [|eauto].
      intros _. right. eauto.
    + destruct (refresh_no_access_token env w r H Hs Ht) as [c ->].
      split; [|eauto]. intros _. right. eauto.
    + rewrite (refresh_with_access_token env w r items token H Hs Hb Ht).
      assert (Hitems : payload_items r = Some items)
        by (unfold payload_items; rewrite Hb; reflexivity).
      assert (Htoken : payload_access_token r = Some token)
        by (unfold payload_access_token; rewrite Hitems; exact Ht).
      rewrite H.
      destruct (new_expiry _ _) as [t|c] eqn:Hx; cbn [fst]; split.
      * intros [e [=]].
      * intros [[e [=]]|(r' & [= <-] & [Hs'|[Ht'|(items' & c & Hi & Hx')]])];
          congruence.
      * intros _. right. exists r. split; [reflexivity|].
        right. right. exists items, c. auto.
      * eauto.
  - intros e He. apply refresh_raises_auth_error in He as [c ->]. reflexivity.
  - intros Hno. destruct (fst (_refresh_access_token env w)) as [[]|e];
      [reflexivity|]. exfalso. apply Hno. eauto.
Qed.

Lemma refresh_raises_iff_witness :
  exists e,
    fst (_refresh_access_token
           (answering [("access_token", VStr "T"); ("expires_in", VStr "soon")])
           (start zoho_books)) = Raise e.
Proof.
  apply (proj1 (refresh_raises_iff
                  (answering [("access_token", VStr "T");
                              ("expires_in", VStr "soon")])
                  (start zoho_books))).
  right. eexists. split; [reflexivity|].
  right. right. exists [("access_token", VStr "T"); ("expires_in", VStr "soon")].
  exists TypeError. split; reflexivity.
Defined.

(** C10, as stated, does not hold: a reply with an empty [access_token] and
    a positive [expires_in] makes the refresh succeed, and the token stored
    is empty. *)
Lemma refresh_success_can_store_empty_token :
  ~ (forall (env : Env) (w : World) (r : Response)
            (items : list (string * value)) (n : Z),
       post_reply env (post_calls w) = Returns r ->
       json_body r = Some (VDict items) ->
       fst (_refresh_access_token env w) = Ok tt ->
       as_int (expires_in_or_default items) = Some n ->
       0 < n ->
       token_held (this (snd (_refresh_access_token env w))) = true /\
       fst (_token_expired env (snd (_refresh_access_token env w))) = Ok false).
Proof.
  intros H.
  destruct (H (answering [("access_token", VStr EmptyString); ("expires_in", VInt 3600)])
              (start zoho_books) _ _ 3600 eq_refl eq_refl eq_refl eq_refl eq_refl)
    as [Hheld _].
  vm_compute in Hheld. discriminate.
Qed.

(** C10, amended. After a successful refresh whose reply carries a non-empty
    (truthy) [access_token] and a strictly positive [expires_in] (or none,
    which counts as 3600), a token is held and, as long as the clock has
    not reached the new expiry, [_token_expired] is [False]. *)
Theorem refresh_success_leaves_usable_token (env : Env) (w : World)
    (r : Response) (items : list (string * value)) (token : value) (n : Z) :
  post_reply env (post_calls w) = Returns r ->
  json_body r = Some (VDict items) ->
  dict_lookup "access_token" items = Some token ->
  fst (_refresh_access_token env w) = Ok tt ->
  truthy token = true ->
  as_int (expires_in_or_default items) = Some n ->
  0 < n ->
  let w' := snd (_refresh_access_token env w) in
  clock env (now_calls w') < clock env (now_calls w) + n * us_per_second ->
  token_held (this w') = true /\ fst (_token_expired env w') = Ok false.
Proof.
  intros H Hb Ht Hok Htruthy Hn Hpos w' Hsoon. subst w'.
  destruct (refresh_success_state env w r items token H Hb Ht Hok)
    as (n' & Hn' & Htoken & Hexpiry).
  assert (n' = n) as -> by congruence.
  split.
  - unfold token_held. rewrite Htoken. exact Htruthy.
  - apply token_expired_false_iff. eexists. split; [exact Hexpiry|]. lia.
Qed.

Lemma refresh_success_leaves_usable_token_witness :
  let env := answering [("access_token", VStr "new_token");
                        ("expires_in", VInt 3600)] in
  let w' := snd (_refresh_access_token env (start zoho_books)) in
  token_held (this w') = true /\ fst (_token_expired env w') = Ok false.
Proof.
  intros env w'.
  apply (refresh_success_leaves_usable_token env (start zoho_books)
           {| status_code := 200;
              json_body := Some (VDict [("access_token", VStr "new_token");
                                        ("expires_in", VInt 3600)]) |}
           [("access_token", VStr "new_token"); ("expires_in", VInt 3600)]
           (VStr "new_token") 3600);
    reflexivity.
Defined.

(** *** The retry loop *)

Lemma sleeps_app (tr1 tr2 : list event) :
  sleeps (tr1 ++ tr2) = sleeps tr1 ++ sleeps tr2.
Proof. apply flat_map_app. Qed.

(** Three failed attempts in a row exhaust [stop_after_attempt(3)]: the
    loop sleeps after the first and the second and raises [RetryError] with
    the exception of the third. *)
Lemma Retrying_exhausted {A} (wait : nat -> Z) (fn : M A)
    (w w1 w2 w3 : World) (e1 e2 e3 : exn) :
  fn w = (Raise e1, w1) ->
  fn (snd (time_sleep (wait 1%nat) w1)) = (Raise e2, w2) ->
  fn (snd (time_sleep (wait 2%nat) w2)) = (Raise e3, w3) ->
  Retrying 3 wait fn 1 w = (Raise (RetryError e3), w3).
Proof.
  intros H1 H2 H3.
  rewrite Retrying_step, H1. cbn [stop_after_attempt Nat.leb].
  rewrite Retrying_step, H2. cbn [stop_after_attempt Nat.leb].
  rewrite Retrying_step, H3. reflexivity.
Qed.

(** A relation between worlds that every attempt and every sleep respects
    is respected by the whole loop. *)
Lemma Retrying_preserves {A} (R : World -> World -> Prop)
    (max_attempt_number : nat) (wait : nat -> Z) (fn : M A) :
  (forall w, R w w) ->
  (forall w1 w2 w3, R w1 w2 -> R w2 w3 -> R w1 w3) ->
  (forall w, R w (snd (fn w))) ->
  (forall k w, R w (snd (time_sleep (wait k) w))) ->
  forall attempt_number w,
    R w (snd (Retrying max_attempt_number wait fn attempt_number w)).
Proof.
  intros Hrefl Htrans Hfn Hsleep attempt_number.
  remember (max_attempt_number - attempt_number)%nat as budget eqn:Hbudget.
  revert attempt_number Hbudget.
  induction budget as [|budget IH]; intros attempt_number Hbudget w;
    rewrite Retrying_step; pose proof (Hfn w) as Hstep;
    destruct (fn w) as [[a|e] w1]; cbn [snd] in *; try exact Hstep;
    unfold stop_after_attempt;
    destruct (Nat.leb_spec max_attempt_number attempt_number);
    cbn [snd]; try exact Hstep; try lia.
  eapply Htrans; [exact Hstep|].
  eapply Htrans; [apply (Hsleep attempt_number)|].
  apply IH. lia.
Qed.

(** When no attempt sleeps by itself, the loop sleeps [wait n], [wait (n+1)],
    ... once after each failed attempt but the last; a loop that ends in an
    exception has used all of them. *)
Lemma Retrying_sleeps {A} (max_attempt_number : nat) (wait : nat -> Z)
    (fn : M A) :
  (forall w, sleeps (trace (snd (fn w))) = sleeps (trace w)) ->
  forall attempt_number w,
  exists k,
    (k <= max_attempt_number - attempt_number)%nat /\
    sleeps (trace (snd (Retrying max_attempt_number wait fn attempt_number w))) =
      sleeps (trace w) ++ map wait (seq attempt_number k) /\
    (forall e,
        fst (Retrying max_attempt_number wait fn attempt_number w) = Raise e ->
        k = (max_attempt_number - attempt_number)%nat).
Proof.
  intros Hfn attempt_number.
  remember (max_attempt_number - attempt_number)%nat as budget eqn:Hbudget.
  revert attempt_number Hbudget.
  induction budget as [|budget IH]; intros attempt_number Hbudget w;
    rewrite Retrying_step; pose proof (Hfn w) as Hstep;
    destruct (fn w) as [[a|e] w1]; cbn [snd] in *.
  - exists 0%nat. cbn [seq map]. rewrite app_nil_r.
    split; [lia|]. split; [assumption|discriminate].
  - unfold stop_after_attempt.
    destruct (Nat.leb_spec max_attempt_number attempt_number); [|lia].
    exists 0%nat. cbn [seq map snd]. rewrite app_nil_r. auto.
  - exists 0%nat. cbn [seq map]. rewrite app_nil_r.
    split; [lia|]. split; [assumption|discriminate].
  - unfold stop_after_attempt.
    destruct (Nat.leb_spec max_attempt_number attempt_number); [lia|].
    destruct (IH (S attempt_number) ltac:(lia)
                 (snd (time_sleep (wait attempt_number) w1)))
      as (k & Hk & Hsl & Hall).
    exists (S k). split; [lia|]. split.
    + rewrite Hsl. cbn [time_sleep snd trace seq map].
      rewrite sleeps_app, Hstep. cbn. rewrite <- app_assoc. reflexivity.
    + intros e' He'. f_equal. exact (Hall e' He').
Qed.

(** *** One attempt of [_make_request] *)

(** With a usable token and a resource call that fails in transport or by its
    status, the attempt raises [ZohoAPIError] wrapping that failure. *)
Lemma attempt_request_fails (env : Env) (method endpoint : string)
    (params : option (gmap string string)) (data : option value)
    (w : World) (expires_at : Z) (cause : exn) :
  token_held (this w) = true ->
  _token_expires_at (this w) = Some expires_at ->
  clock env (now_calls w) < expires_at ->
  transport_or_status_failure (request_reply env (request_calls w)) = Some cause ->
  _make_request_attempt env method endpoint params data w =
  (Raise (ZohoAPIError cause), requested method endpoint params data w).
Proof.
  intros Hheld He Hlt Hfail.
  unfold _make_request_attempt, try_except, bind at 1.
  rewrite (access_token_fresh env w expires_at Hheld He Hlt).
  unfold raise_for_status. unfold_py.
  cbn [this now_calls post_calls request_calls trace].
  unfold transport_or_status_failure in Hfail.
  destruct (request_reply env (request_calls w)) as [r|[]]; try discriminate.
  - destruct (has_error_status r); [|discriminate].
    injection Hfail as <-. reflexivity.
  - injection Hfail as <-. reflexivity.
Qed.

Lemma grows_by_refl (cfg : ZohoConfig) (Q : event -> Prop) (w : World) :
  grows_by cfg Q w w.
Proof.
  intros Hc. split; [exact Hc|]. exists []. rewrite app_nil_r. auto.
Qed.

Lemma grows_by_trans (cfg : ZohoConfig) (Q : event -> Prop) (w1 w2 w3 : World) :
  grows_by cfg Q w1 w2 -> grows_by cfg Q w2 w3 -> grows_by cfg Q w1 w3.
Proof.
  intros H12 H23 Hc.
  destruct (H12 Hc) as (Hc2 & evs & Ht & Hq).
  destruct (H23 Hc2) as (Hc3 & evs' & Ht' & Hq').
  split; [exact Hc3|]. exists (evs ++ evs').
  rewrite Ht', Ht, app_assoc. split; [reflexivity|].
  apply Forall_app; auto.
Qed.

(** The accessor sends at most a token request and keeps the configuration. *)
Lemma access_token_grows (env : Env) (cfg : ZohoConfig) (Q : event -> Prop)
    (w : World) :
  (forall url params, Q (EvPost url params)) ->
  grows_by cfg Q w (snd (access_token env w)) /\
  request_calls (snd (access_token env w)) = request_calls w.
Proof.
  intros HQ.
  assert (Hcases :
    (token_held (this w) = false \/ fst (_token_expired env w) = Ok true) \/
    exists t, token_held (this w) = true /\
              _token_expires_at (this w) = Some t /\
              clock env (now_calls w) < t).
  { destruct (token_held (this w)); [|auto].
    destruct (token_expired_total env w) as [H|H]; [auto|].
    apply token_expired_false_iff in H as (t & He & Hlt).
    right. exists t. repeat split; auto. lia. }
  destruct Hcases as [Hstale|(t & Hheld & He & Hlt)].
  - destruct (access_token_stale env w Hstale)
      as (w1 & Hthis & _ & Hreq & Htrace & ->).
    pose proof (refresh_world env w1) as (_ & Hreq' & Htrace' & Hcfg).
    destruct (_refresh_access_token env w1) as [[[]|e] w2]; cbn [snd] in *;
      (split; [|congruence]); intros Hc;
      (split; [congruence|]); eexists; rewrite Htrace'; unfold posted;
      cbn [trace]; rewrite Htrace; (split; [reflexivity|]);
      repeat constructor; apply HQ.
  - rewrite (access_token_fresh env w t Hheld He Hlt). cbn [snd].
    split; [|reflexivity]. intros Hc. split; [exact Hc|].
    exists []. cbn [trace]. rewrite app_nil_r. auto.
Qed.

(** An attempt sends at most a token request and then at most the one
    resource request it was asked for; it never sleeps. *)
Lemma attempt_grows (env : Env) (method endpoint : string)
    (params : option (gmap string string)) (data : option value)
    (cfg : ZohoConfig) (Q : event -> Prop) (w : World) :
  (forall url ps, Q (EvPost url ps)) ->
  (forall bearer,
     Q (EvRequest method (api_base_url cfg +:+ "/" +:+ endpoint) bearer
                  params data)) ->
  grows_by cfg Q w (snd (_make_request_attempt env method endpoint params data w)).
Proof.
  intros HQpost HQreq.
  destruct (access_token_grows env cfg Q w HQpost) as (Hgrow & _).
  unfold _make_request_attempt, try_except, bind at 1.
  destruct (access_token env w) as [[token|e] w1]; cbn [snd] in Hgrow.
  - eapply grows_by_trans; [exact Hgrow|]. intros Hc.
    unfold raise_for_status, json. unfold_py.
    assert (Hev : Forall Q [EvRequest method
                              (api_base_url (config (this w1)) +:+ "/" +:+ endpoint)
                              token params data]).
    { rewrite Hc. repeat constructor. apply HQreq. }
    destruct (request_reply env (request_calls w1)) as [r|e];
      [destruct (has_error_status r); [|destruct (json_body r)]
      |destruct (is_RequestException e)];
      cbn [snd fst this trace is_RequestException];
      (split; [exact Hc|]); eexists; (split; [reflexivity|exact Hev]).
  - destruct (is_RequestException e); exact Hgrow.
Qed.

Lemma attempt_never_sleeps (env : Env) (method endpoint : string)
    (params : option (gmap string string)) (data : option value) (w : World) :
  sleeps (trace (snd (_make_request_attempt env method endpoint params data w))) =
  sleeps (trace w).
Proof.
  destruct (attempt_grows env method endpoint params data (config (this w))
              (fun ev => sleeps [ev] = []) w) as (_ & evs & -> & Hevs);
    try reflexivity.
  rewrite sleeps_app. rewrite <- (app_nil_r (sleeps (trace w))) at 2. f_equal.
  induction Hevs as [|ev evs Hev _ IH]; [reflexivity|].
  change (ev :: evs) with ([ev] ++ evs). rewrite sleeps_app, Hev, IH.
  reflexivity.
Qed.

(** *** [_make_request] *)

(** With multiplier 1, floor 4 and cap 10 the exponential term [2^(k-1)]
    only shows from the fourth attempt on. *)
Lemma wait_exponential_floor (k : nat) :
  (1 <= k)%nat ->
  wait_exponential 1 4 10 k = Z.max 4 (Z.min (2 ^ (Z.of_nat k - 1)) 10) /\
  4 <= wait_exponential 1 4 10 k <= 10.
Proof.
  intros Hk. unfold wait_exponential.
  replace (Z.max 0 4) with 4 by reflexivity. rewrite Z.mul_1_l.
  split; [reflexivity|]. lia.
Qed.

(** C1 fails on the code. When every attempt of a resource request fails in
    transport or by an error status (the token being usable throughout),
    [_make_request] makes exactly three requests, sleeps 4 and 4, and raises
    tenacity's [RetryError], not [ZohoAPIError]: the [ZohoAPIError] that
    wraps the last cause is only what the [RetryError] carries. *)
Theorem make_request_exhausted_raises_retry_error (env : Env)
    (method endpoint : string) (params : option (gmap string string))
    (data : option value) (w : World) (expires_at : Z) :
  token_held (this w) = true ->
  _token_expires_at (this w) = Some expires_at ->
  (forall k, (k < 3)%nat -> clock env (k + now_calls w) < expires_at) ->
  (forall k, (k < 3)%nat ->
     exists cause,
       transport_or_status_failure
         (request_reply env (k + request_calls w)) = Some cause) ->
  exists cause w',
    transport_or_status_failure
      (request_reply env (2 + request_calls w)) = Some cause /\
    _make_request env method endpoint params data w =
      (Raise (RetryError (ZohoAPIError cause)), w') /\
    is_ZohoAPIError (RetryError (ZohoAPIError cause)) = false /\
    request_calls w' = (3 + request_calls w)%nat /\
    sleeps (trace w') = sleeps (trace w) ++ [4; 4].
Proof.
  intros Hheld He Hclock Hfail.
  destruct (Hfail 0%nat ltac:(lia)) as [c1 H1].
  destruct (Hfail 1%nat ltac:(lia)) as [c2 H2].
  destruct (Hfail 2%nat ltac:(lia)) as [c3 H3].
  pose proof (Hclock 0%nat ltac:(lia)) as T1.
  pose proof (Hclock 1%nat ltac:(lia)) as T2.
  pose proof (Hclock 2%nat ltac:(lia)) as T3.
  cbn [Nat.add] in *.
  exists c3. eexists. split; [exact H3|]. split.
  - unfold _make_request.
    eapply Retrying_exhausted.
    + apply (attempt_request_fails env _ _ _ _ w expires_at c1); assumption.
    + apply (attempt_request_fails env _ _ _ _ _ expires_at c2); assumption.
    + apply (attempt_request_fails env _ _ _ _ _ expires_at c3); assumption.
  - split; [reflexivity|]. split; [reflexivity|].
    cbn [requested time_sleep snd trace this].
    rewrite !sleeps_app. cbn. rewrite <- !app_assoc. reflexivity.
Qed.

Lemma make_request_exhausted_raises_retry_error_witness :
  exists w',
    _make_request unreachable "GET" "test_endpoint" None None
                  (start with_test_token) =
      (Raise (RetryError (ZohoAPIError (RequestException "connection refused"))),
       w') /\
    request_calls w' = 3%nat /\
    sleeps (trace w') = [4; 4].
Proof.
  destruct (make_request_exhausted_raises_retry_error unreachable
              "GET" "test_endpoint" None None (start with_test_token)
              (a_day_in_2024 + 3600 * us_per_second) eq_refl eq_refl
              (fun k _ => eq_refl)
              (fun k _ => ex_intro _ (RequestException "connection refused") eq_refl))
    as (cause & w' & Hcause & Hrun & _ & Hcalls & Hsleeps).
  injection Hcause as <-.
  exists w'. auto.
Defined.

(** [test_make_request_failure] as the repository has it, the mock raising a
    plain [Exception]: the attempt lets it through, and the caller gets a
    [RetryError], not the [ZohoAPIError] the test asks for. *)
Example test_make_request_failure :
  fst (_make_request
         (steady_env a_day_in_2024 (Fails (PlainException "API Error"))
                     (Fails (PlainException "API Error")))
         "GET" "test_endpoint" None None (start with_test_token)) =
  Raise (RetryError (PlainException "API Error")).
Proof. vm_compute. reflexivity. Qed.

(** C5, as stated, does not hold: the delays are not 4, 8, 10.  A request
    that fails three times sleeps twice, 4 and 4. *)
Lemma make_request_delays_are_not_4_8_10 :
  ~ (forall (env : Env) (w : World) (e : exn),
       fst (_make_request env "GET" "test_endpoint" None None w) = Raise e ->
       exists k,
         sleeps (trace (snd (_make_request env "GET" "test_endpoint" None None w))) =
         sleeps (trace w) ++ firstn k [4; 8; 10] /\
         (2 <= k)%nat).
Proof.
  intros H.
  destruct (H unreachable (start with_test_token) _ eq_refl) as (k & Hk & Hge).
  vm_compute in Hk.
  destruct k as [|[|[|k]]]; try lia; discriminate Hk.
Qed.

(** C5, amended. The delay after the k-th failed attempt is
    [max(4, min(2^(k-1), 10))]: multiplier 1, never below 4, never above 10.
    With three attempts there are at most two delays, after the first and the
    second attempt, and both are 4; a call that ends in an exception has slept
    exactly 4 and 4. *)
Theorem make_request_delays (env : Env) (method endpoint : string)
    (params : option (gmap string string)) (data : option value) (w : World) :
  let out := _make_request env method endpoint params data w in
  (forall k, (1 <= k)%nat ->
     wait_exponential 1 4 10 k = Z.max 4 (Z.min (2 ^ (Z.of_nat k - 1)) 10) /\
     4 <= wait_exponential 1 4 10 k <= 10) /\
  (exists k,
     (k <= 2)%nat /\
     sleeps (trace (snd out)) = sleeps (trace w) ++ repeat 4 k) /\
  (forall e, fst out = Raise e ->
     sleeps (trace (snd out)) = sleeps (trace w) ++ [4; 4]).
Proof.
  intros out. subst out. split; [apply wait_exponential_floor|].
  destruct (Retrying_sleeps 3 (wait_exponential 1 4 10)
              (_make_request_attempt env method endpoint params data)
              (attempt_never_sleeps env method endpoint params data) 1%nat w)
    as (k & Hk & Hsl & Hall).
  fold (_make_request env method endpoint params data) in Hsl, Hall.
  split.
  - exists k. split; [exact Hk|]. rewrite Hsl. f_equal.
    destruct k as [|[|[|k]]]; try reflexivity. cbn in Hk. lia.
  - intros e He. rewrite Hsl, (Hall e He). reflexivity.
Qed.

Lemma make_request_delays_witness :
  sleeps (trace (snd (_make_request unreachable "GET" "test_endpoint" None None
                                    (start with_test_token)))) = [4; 4].
Proof.
  exact (proj2 (proj2 (make_request_delays unreachable "GET" "test_endpoint"
                         None None (start with_test_token)))
               _ eq_refl).
Defined.

(** *** [get_invoices] *)



(** The loop around the attempts sends nothing but token requests, the
    resource request it was asked for, and sleeps. *)
Lemma make_request_grows (env : Env) (method endpoint : string)
    (params : option (gmap string string)) (data : option value) (w : World) :
  grows_by (config (this w))
    (is_request_to method (api_base_url (config (this w)) +:+ "/" +:+ endpoint)
                   params data)
    w (snd (_make_request env method endpoint params data w)).
Proof.
  unfold _make_request.
  apply (Retrying_preserves
           (grows_by (config (this w))
              (is_request_to method
                 (api_base_url (config (this w)) +:+ "/" +:+ endpoint)
                 params data))).
  - apply grows_by_refl.
  - apply grows_by_trans.
  - intros w0. apply attempt_grows; cbn; auto.
  - intros k w0 Hc. split; [exact Hc|].
    exists [EvSleep (wait_exponential 1 4 10 k)].
    split; [reflexivity|]. repeat constructor.
Qed.







(** What reaches the wire in the example call. *)
Example get_invoices_sends_four_parameters :
  sent_params
    (trace (snd (get_invoices (serving (VDict [])) (Some "2024-01-01")
                              (Some "2024-01-31") (Some "sent")
                              (start with_test_token)))) =
  [Some (invoice_params with_test_token
           (Some "2024-01-01") (Some "2024-01-31") (Some "sent"))].
Proof. vm_compute. reflexivity. Qed.

(** C7, as stated, does not hold for every parsed response: when the body
    parses to a JSON array, [response.get] does not exist and [get_invoices]
    raises [AttributeError] instead of returning an empty sequence. *)
Lemma get_invoices_fails_on_json_array :
  ~ (forall (env : Env) (w w' : World)
            (from_date to_date status : option string) (response : value),
       _make_request env "GET" "invoices"
         (Some (invoice_params (this w) from_date to_date status)) None w =
         (Ok response, w') ->
       exists invoices,
         get_invoices env from_date to_date status w = (Ok invoices, w')).
Proof.
  intros H.
  pose (out := _make_request (serving (VList [])) "GET" "invoices"
                 (Some (invoice_params with_test_token None None None)) None
                 (start with_test_token)).
  assert (Hrun : out = (Ok (VList []), snd out)) by (vm_compute; reflexivity).
  destruct (H (serving (VList [])) (start with_test_token) (snd out)
              None None None (VList []) Hrun) as [invoices Hget].
  vm_compute in Hget. discriminate Hget.
Qed.

(** C7, amended. Whatever JSON object [_make_request] returns,
    [get_invoices] returns the value under its ["invoices"] key, and the
    empty list when the object has no such key; it raises nothing. *)
Theorem get_invoices_returns_invoices_or_empty (env : Env) (w w' : World)
    (from_date to_date status : option string)
    (items : list (string * value)) :
  _make_request env "GET" "invoices"
    (Some (invoice_params (this w) from_date to_date status)) None w =
    (Ok (VDict items), w') ->
  get_invoices env from_date to_date status w =
    (Ok (match dict_lookup "invoices" items with
         | Some invoices => invoices
         | None => VList []
         end), w') /\
  (dict_lookup "invoices" items = None ->
   get_invoices env from_date to_date status w = (Ok (VList []), w')).
Proof.
  intros Hrun.
  assert (Hget : get_invoices env from_date to_date status w =
                 (get (VDict items) "invoices" (VList []), w')).
  { unfold get_invoices, bind, get_self. rewrite Hrun. reflexivity. }
  rewrite Hget. unfold get.
  split; [|intros ->; reflexivity].
  destruct (dict_lookup "invoices" items); reflexivity.
Qed.

Lemma get_invoices_returns_invoices_or_empty_witness :
  fst (get_invoices (serving (VDict [])) None None None (start zoho_books)) =
  Ok (VList []).
Proof.
  pose (out := _make_request (serving (VDict [])) "GET" "invoices"
                 (Some (invoice_params zoho_books None None None)) None
                 (start zoho_books)).
  assert (Hrun : out = (Ok (VDict []), snd out)) by (vm_compute; reflexivity).
  rewrite (proj2 (get_invoices_returns_invoices_or_empty
                    (serving (VDict [])) (start zoho_books) (snd out)
                    None None None [] Hrun) eq_refl).
  reflexivity.
Defined.

(** C9. An empty string passed as [from_date], [to_date] or [status] is
    treated as an absent argument: the query parameters, and the whole call,
    are those of the call without it. *)
Theorem get_invoices_empty_string_is_absent (env : Env) (w : World)
    (from_date to_date status : option string) :
  invoice_params (this w) (Some EmptyString) to_date status =
    invoice_params (this w) None to_date status /\
  invoice_params (this w) from_date (Some EmptyString) status =
    invoice_params (this w) from_date None status /\
  invoice_params (this w) from_date to_date (Some EmptyString) =
    invoice_params (this w) from_date to_date None /\
  get_invoices env (Some EmptyString) to_date status w =
    get_invoices env None to_date status w /\
  get_invoices env from_date (Some EmptyString) status w =
    get_invoices env from_date None status w /\
  get_invoices env from_date to_date (Some EmptyString) w =
    get_invoices env from_date to_date None w.
Proof.
  repeat apply conj; reflexivity.
Qed.

(** *** The repository's tests, on the model *)

Example test_token_expired_when_no_expiry_set :
  fst (_token_expired unreachable (start zoho_books)) = Ok true.
Proof. reflexivity. Qed.

Example test_token_expired_when_past_expiry :
  fst (_token_expired unreachable
         (start {| config := mock_config; _access_token := VNone;
                   _token_expires_at :=
                     Some (a_day_in_2024 - 300 * us_per_second) |})) = Ok true.
Proof. reflexivity. Qed.

Example test_token_not_expired_when_valid :
  fst (_token_expired unreachable
         (start {| config := mock_config; _access_token := VNone;
                   _token_expires_at :=
                     Some (a_day_in_2024 + 300 * us_per_second) |})) = Ok false.
Proof. reflexivity. Qed.

Example test_refresh_access_token_success :
  let out := _refresh_access_token (serving (VDict [])) (start zoho_books) in
  fst out = Ok tt /\
  _access_token (this (snd out)) = VStr "new_token" /\
  _token_expires_at (this (snd out)) =
    Some (a_day_in_2024 + 3600 * us_per_second).
Proof. repeat split. Qed.

Example test_refresh_access_token_failure :
  fst (_refresh_access_token
         (steady_env a_day_in_2024 (Fails (PlainException "API Error"))
                     (Fails (PlainException "API Error")))
         (start zoho_books)) =
  Raise (ZohoAuthError (PlainException "API Error")).
Proof. reflexivity. Qed.

Example test_make_request_success :
  fst (_make_request (serving (VDict [("data", VStr "test")]))
                     "GET" "test_endpoint" None None (start with_test_token)) =
  Ok (VDict [("data", VStr "test")]).
Proof. vm_compute. reflexivity. Qed.

Example test_get_invoices_success :
  let invoices :=
    VList [VDict [("id", VStr "1"); ("amount", VInt 100)];
           VDict [("id", VStr "2"); ("amount", VInt 200)]] in
  fst (get_invoices (serving (VDict [("invoices", invoices)]))
                    (Some "2024-01-01") (Some "2024-01-31") (Some "sent")
                    (start with_test_token)) = Ok invoices.
Proof. vm_compute. reflexivity. Qed.

Example test_get_invoices_empty_response :
  fst (get_invoices (serving (VDict [])) None None None
                    (start with_test_token)) = Ok (VList []).
Proof. vm_compute. reflexivity. Qed.

(** ** Further properties of the client *)

(** *** What the retry loop lets out *)

(** The only exception the loop raises itself is [RetryError]. *)
Lemma Retrying_raises {A} (max_attempt_number : nat) (wait : nat -> Z)
    (fn : M A) (attempt_number : nat) (w : World) (e : exn) :
  fst (Retrying max_attempt_number wait fn attempt_number w) = Raise e ->
  exists last, e = RetryError last.
Proof.
  remember (max_attempt_number - attempt_number)%nat as budget eqn:Hbudget.
  revert attempt_number Hbudget w.
  induction budget as [|budget IH]; intros attempt_number Hbudget w;
    rewrite Retrying_step; destruct (fn w) as [[a|e1] w1];
    try discriminate;
    destruct (stop_after_attempt max_attempt_number attempt_number) eqn:Hstop;
    cbn [fst]; try (intros [= <-]; eauto).
  - unfold stop_after_attempt in Hstop. apply Nat.leb_gt in Hstop. lia.
  - apply IH. unfold stop_after_attempt in Hstop.
    apply Nat.leb_gt in Hstop. lia.
Qed.

(** A counter that an attempt raises by at most one and a sleep leaves alone
    is raised by at most the number of attempts left. *)
Lemma Retrying_bounded {A} (f : World -> nat) (max_attempt_number : nat)
    (wait : nat -> Z) (fn : M A) :
  (forall w, (f w <= f (snd (fn w)) <= S (f w))%nat) ->
  (forall s w, f (snd (time_sleep s w)) = f w) ->
  forall attempt_number w,
    (f w <= f (snd (Retrying max_attempt_number wait fn attempt_number w))
         <= f w + S (max_attempt_number - attempt_number))%nat.
Proof.
  intros Hfn Hsleep attempt_number.
  remember (max_attempt_number - attempt_number)%nat as budget eqn:Hbudget.
  revert attempt_number Hbudget.
  induction budget as [|budget IH]; intros attempt_number Hbudget w;
    rewrite Retrying_step; pose proof (Hfn w) as Hstep;
    destruct (fn w) as [[a|e] w1]; cbn [snd] in *; try lia;
    unfold stop_after_attempt;
    destruct (Nat.leb_spec max_attempt_number attempt_number);
    cbn [snd]; try lia.
  pose proof (IH (S attempt_number) ltac:(lia)
                 (snd (time_sleep (wait attempt_number) w1))) as Hrest.
  rewrite Hsleep in Hrest. lia.
Qed.

(** A result of the loop is the result of its last attempt, and the counter
    shows that this attempt has run. *)
Lemma Retrying_ok_progress {A} (f : World -> nat) (max_attempt_number : nat)
    (wait : nat -> Z) (fn : M A) :
  (forall w, (f w <= f (snd (fn w)))%nat) ->
  (forall w a, fst (fn w) = Ok a -> (f w < f (snd (fn w)))%nat) ->
  (forall s w, f (snd (time_sleep s w)) = f w) ->
  forall attempt_number w a,
    fst (Retrying max_attempt_number wait fn attempt_number w) = Ok a ->
    (f w < f (snd (Retrying max_attempt_number wait fn attempt_number w)))%nat.
Proof.
  intros Hmono Hok Hsleep attempt_number.
  remember (max_attempt_number - attempt_number)%nat as budget eqn:Hbudget.
  revert attempt_number Hbudget.
  induction budget as [|budget IH]; intros attempt_number Hbudget w a;
    rewrite Retrying_step; pose proof (Hmono w) as Hstep;
    pose proof (Hok w) as Hdone;
    destruct (fn w) as [[a1|e] w1]; cbn [fst snd] in *;
    try (intros _; apply (Hdone a1 eq_refl));
    unfold stop_after_attempt;
    destruct (Nat.leb_spec max_attempt_number attempt_number);
    cbn [fst snd]; try discriminate; try lia.
  intros Hrun.
  pose proof (IH (S attempt_number) ltac:(lia) _ a Hrun) as Hrest.
  rewrite Hsleep in Hrest. lia.
Qed.

(** Either a refresh is due, or a token is held that the clock shows to be
    good. *)
Lemma stale_or_fresh (env : Env) (w : World) :
  (token_held (this w) = false \/ fst (_token_expired env w) = Ok true) \/
  exists expires_at,
    token_held (this w) = true /\
    _token_expires_at (this w) = Some expires_at /\
    clock env (now_calls w) < expires_at.
Proof.
  destruct (token_held (this w)); [|auto].
  destruct (token_expired_total env w) as [H|H]; [auto|].
  apply token_expired_false_iff in H as (t & He & Hlt).
  right. exists t. repeat split; auto. lia.
Qed.

(** The accessor sends at most one token request and no resource request. *)
Lemma access_token_counters (env : Env) (w : World) :
  (post_calls w <= post_calls (snd (access_token env w))
                <= S (post_calls w))%nat /\
  request_calls (snd (access_token env w)) = request_calls w.
Proof.
  destruct (stale_or_fresh env w) as [Hstale|(t & Hheld & He & Hlt)].
  - destruct (access_token_stale env w Hstale)
      as (w1 & _ & Hposts & Hreq & _ & ->).
    pose proof (refresh_world env w1) as (Hposts' & Hreq' & _).
    destruct (_refresh_access_token env w1) as [[[]|e] w2]; cbn [snd] in *;
      split; lia.
  - rewrite (access_token_fresh env w t Hheld He Hlt). cbn [snd post_calls
      request_calls]. split; [lia|reflexivity].
Qed.

(** An attempt sends at most one token request and at most one resource
    request; when it returns, it has sent the resource request. *)
Lemma attempt_counters (env : Env) (method endpoint : string)
    (params : option (gmap string string)) (data : option value) (w : World) :
  let out := _make_request_attempt env method endpoint params data w in
  (post_calls w <= post_calls (snd out) <= S (post_calls w))%nat /\
  (request_calls w <= request_calls (snd out) <= S (request_calls w))%nat /\
  (forall body, fst out = Ok body ->
     request_calls (snd out) = S (request_calls w)).
Proof.
  intros out. subst out.
  pose proof (access_token_counters env w) as (Hposts & Hreq).
  unfold _make_request_attempt, raise_for_status, json. unfold_py.
  destruct (access_token env w) as [[token|e] w1]; cbn [snd] in *.
  - destruct (request_reply env (request_calls w1)) as [r|e];
      [destruct (has_error_status r); [|destruct (json_body r)]
      |destruct (is_RequestException e)];
      simpl; (split; [lia|split; [lia|]]); intros body Hbody;
      first [discriminate Hbody | lia].
  - destruct (is_RequestException e); cbn [fst snd];
      (split; [lia|split; [lia|]]); intros body Hbody; discriminate Hbody.
Qed.

(** X1. No call of [_make_request] lets a [ZohoAPIError] or a
    [ZohoAuthError] out: whatever it raises is a [RetryError]. *)
Theorem make_request_raises_only_retry_error (env : Env)
    (method endpoint : string) (params : option (gmap string string))
    (data : option value) (w : World) (e : exn) :
  fst (_make_request env method endpoint params data w) = Raise e ->
  (exists last, e = RetryError last) /\
  is_ZohoAPIError e = false /\
  is_ZohoAuthError e = false.
Proof.
  intros Hrun. apply Retrying_raises in Hrun as [last ->]. eauto.
Qed.

Lemma make_request_raises_only_retry_error_witness :
  (exists last,
      RetryError (ZohoAuthError (RequestException "connection refused")) =
      RetryError last) /\
  is_ZohoAPIError
    (RetryError (ZohoAuthError (RequestException "connection refused"))) = false /\
  is_ZohoAuthError
    (RetryError (ZohoAuthError (RequestException "connection refused"))) = false.
Proof.
  apply (make_request_raises_only_retry_error unreachable "GET" "invoices"
           None None (start zoho_books)).
  vm_compute. reflexivity.
Defined.

(** X2. One call of [_make_request] sends at most three resource requests
    and at most three token requests, never changes the configuration, and
    does not return without having sent a resource request. *)
Theorem make_request_call_budget (env : Env) (method endpoint : string)
    (params : option (gmap string string)) (data : option value) (w : World) :
  let out := _make_request env method endpoint params data w in
  (request_calls w <= request_calls (snd out) <= request_calls w + 3)%nat /\
  (post_calls w <= post_calls (snd out) <= post_calls w + 3)%nat /\
  config (this (snd out)) = config (this w) /\
  (forall body, fst out = Ok body ->
     (request_calls w < request_calls (snd out))%nat).
Proof.
  intros out. subst out. unfold _make_request. repeat apply conj.
  - apply (Retrying_bounded request_calls 3); [|reflexivity].
    intros w0. apply (attempt_counters env method endpoint params data w0).
  - apply (Retrying_bounded request_calls 3); [|reflexivity].
    intros w0. apply (attempt_counters env method endpoint params data w0).
  - apply (Retrying_bounded post_calls 3); [|reflexivity].
    intros w0. apply (attempt_counters env method endpoint params data w0).
  - apply (Retrying_bounded post_calls 3); [|reflexivity].
    intros w0. apply (attempt_counters env method endpoint params data w0).
  - apply (make_request_grows env method endpoint params data w eq_refl).
  - apply (Retrying_ok_progress request_calls); [| |reflexivity].
    + intros w0. apply (attempt_counters env method endpoint params data w0).
    + intros w0 body Hok.
      destruct (attempt_counters env method endpoint params data w0)
        as (_ & _ & Hsent).
      rewrite (Hsent body Hok). lia.
Qed.

Lemma make_request_call_budget_witness :
  (request_calls (start zoho_books) <
   request_calls
     (snd (_make_request (serving (VDict [])) "GET" "invoices" None None
                         (start zoho_books))))%nat.
Proof.
  exact (proj2 (proj2 (proj2 (make_request_call_budget
                                (serving (VDict [])) "GET" "invoices"
                                None None (start zoho_books))))
               (VDict []) eq_refl).
Defined.

(** *** How one attempt ends *)

(** With a usable token and a reply that parses, the attempt returns the
    parsed body as it is. *)
Lemma attempt_request_succeeds (env : Env) (method endpoint : string)
    (params : option (gmap string string)) (data : option value)
    (w : World) (expires_at : Z) (body : value) :
  token_held (this w) = true ->
  _token_expires_at (this w) = Some expires_at ->
  clock env (now_calls w) < expires_at ->
  parsed_body (request_reply env (request_calls w)) = Some body ->
  _make_request_attempt env method endpoint params data w =
  (Ok body, requested method endpoint params data w).
Proof.
  intros Hheld He Hlt Hbody.
  unfold _make_request_attempt, try_except, bind at 1.
  rewrite (access_token_fresh env w expires_at Hheld He Hlt).
  unfold raise_for_status, json. unfold_py.
  cbn [this now_calls post_calls request_calls trace].
  unfold parsed_body in Hbody.
  destruct (request_reply env (request_calls w)) as [r|e]; [|discriminate].
  destruct (has_error_status r); [discriminate|].
  rewrite Hbody. reflexivity.
Qed.

(** With a usable token and a transport that raises something that is no
    [RequestException], the attempt lets that exception through as it is. *)
Lemma attempt_request_raises_other (env : Env) (method endpoint : string)
    (params : option (gmap string string)) (data : option value)
    (w : World) (expires_at : Z) (e : exn) :
  token_held (this w) = true ->
  _token_expires_at (this w) = Some expires_at ->
  clock env (now_calls w) < expires_at ->
  request_reply env (request_calls w) = Fails e ->
  is_RequestException e = false ->
  _make_request_attempt env method endpoint params data w =
  (Raise e, requested method endpoint params data w).
Proof.
  intros Hheld He Hlt Hreply Hother.
  unfold _make_request_attempt, try_except, bind at 1.
  rewrite (access_token_fresh env w expires_at Hheld He Hlt).
  unfold_py. cbn [this now_calls post_calls request_calls trace].
  rewrite Hreply, Hother. reflexivity.
Qed.

(** A token request that fails before anything is stored, with its cause. *)
Lemma refresh_fails_early (env : Env) (w : World) (cause : exn) :
  token_request_failure (post_reply env (post_calls w)) = Some cause ->
  _refresh_access_token env w = (Raise (ZohoAuthError cause), posted w).
Proof.
  intros Hfail.
  unfold _refresh_access_token, raise_for_status, json, getitem. unfold_py.
  unfold token_request_failure in Hfail.
  destruct (post_reply env (post_calls w)) as [r|e].
  - destruct (has_error_status r); [injection Hfail as <-; reflexivity|].
    destruct (json_body r) as [[]|]; try (injection Hfail as <-; reflexivity).
    destruct (dict_lookup "access_token" items); [discriminate|].
    injection Hfail as <-. reflexivity.
  - injection Hfail as <-. reflexivity.
Qed.

(** With no token held the accessor goes straight to the refresh. *)
Lemma access_token_no_token (env : Env) (w : World) :
  token_held (this w) = false ->
  access_token env w =
  match _refresh_access_token env w with
  | (Ok _, w2) => (Ok (_access_token (this w2)), w2)
  | (Raise e, w2) => (Raise e, w2)
  end.
Proof.
  intros Hnone. unfold access_token, bind at 1 2. unfold get_self at 1.
  unfold token_held in Hnone. rewrite Hnone. cbn [negb].
  unfold ret at 1. unfold bind, get_self, ret.
  destruct (_refresh_access_token env w) as [[[]|e] w2]; reflexivity.
Qed.

(** With no token held and a token request that fails early, the attempt
    raises the [ZohoAuthError] and sends no resource request. *)
Lemma attempt_refresh_fails (env : Env) (method endpoint : string)
    (params : option (gmap string string)) (data : option value)
    (w : World) (cause : exn) :
  token_held (this w) = false ->
  token_request_failure (post_reply env (post_calls w)) = Some cause ->
  _make_request_attempt env method endpoint params data w =
  (Raise (ZohoAuthError cause), posted w).
Proof.
  intros Hnone Hfail.
  unfold _make_request_attempt, try_except, bind at 1.
  rewrite (access_token_no_token env w Hnone).
  rewrite (refresh_fails_early env w cause Hfail). reflexivity.
Qed.

(** *** [_make_request], attempt by attempt *)

(** X3. With a usable token, [_make_request] returns the parsed body of the
    first reply that is no failure, as it is: after [k] replies (k < 3) that
    fail in transport or by status it has sent [k + 1] requests, slept 4
    after each failure, sent no token request and left the object alone. *)
Theorem make_request_returns_first_success (env : Env)
    (method endpoint : string) (params : option (gmap string string))
    (data : option value) (w : World) (expires_at : Z) (k : nat)
    (body : value) :
  (k < 3)%nat ->
  token_held (this w) = true ->
  _token_expires_at (this w) = Some expires_at ->
  (forall j, (j <= k)%nat -> clock env (j + now_calls w) < expires_at) ->
  (forall j, (j < k)%nat ->
     exists cause,
       transport_or_status_failure
         (request_reply env (j + request_calls w)) = Some cause) ->
  parsed_body (request_reply env (k + request_calls w)) = Some body ->
  exists w',
    _make_request env method endpoint params data w = (Ok body, w') /\
    this w' = this w /\
    request_calls w' = (S k + request_calls w)%nat /\
    post_calls w' = post_calls w /\
    sleeps (trace w') = sleeps (trace w) ++ repeat 4 k.
Proof.
  intros Hk Hheld He Hclock Hfail Hbody. unfold _make_request.
  destruct k as [|[|[|k]]]; [| | |lia].
  - pose proof (Hclock 0%nat ltac:(lia)) as T0. cbn [Nat.add] in *.
    eexists. rewrite Retrying_step.
    rewrite (attempt_request_succeeds env _ _ _ _ w expires_at body) by assumption.
    repeat split. cbn [requested trace repeat].
    rewrite sleeps_app. reflexivity.
  - pose proof (Hclock 0%nat ltac:(lia)) as T0.
    pose proof (Hclock 1%nat ltac:(lia)) as T1.
    destruct (Hfail 0%nat ltac:(lia)) as [c0 F0]. cbn [Nat.add] in *.
    eexists. rewrite Retrying_step.
    rewrite (attempt_request_fails env _ _ _ _ w expires_at c0) by assumption.
    cbn [stop_after_attempt Nat.leb]. rewrite Retrying_step.
    rewrite (attempt_request_succeeds env _ _ _ _ _ expires_at body) by assumption.
    repeat split. cbn [requested time_sleep snd trace this repeat].
    rewrite !sleeps_app. cbn. rewrite <- !app_assoc. reflexivity.
  - pose proof (Hclock 0%nat ltac:(lia)) as T0.
    pose proof (Hclock 1%nat ltac:(lia)) as T1.
    pose proof (Hclock 2%nat ltac:(lia)) as T2.
    destruct (Hfail 0%nat ltac:(lia)) as [c0 F0].
    destruct (Hfail 1%nat ltac:(lia)) as [c1 F1]. cbn [Nat.add] in *.
    eexists. rewrite Retrying_step.
    rewrite (attempt_request_fails env _ _ _ _ w expires_at c0) by assumption.
    cbn [stop_after_attempt Nat.leb]. rewrite Retrying_step.
    rewrite (attempt_request_fails env _ _ _ _ _ expires_at c1) by assumption.
    cbn [stop_after_attempt Nat.leb]. rewrite Retrying_step.
    rewrite (attempt_request_succeeds env _ _ _ _ _ expires_at body) by assumption.
    repeat split. cbn [requested time_sleep snd trace this repeat].
    rewrite !sleeps_app. cbn. rewrite <- !app_assoc. reflexivity.
Qed.

Lemma make_request_returns_first_success_witness :
  exists w',
    _make_request (flaky (VDict [("data", VStr "test")]))
                  "GET" "test_endpoint" None None (start with_test_token) =
      (Ok (VDict [("data", VStr "test")]), w') /\
    this w' = with_test_token /\
    request_calls w' = 2%nat /\
    post_calls w' = 0%nat /\
    sleeps (trace w') = [4].
Proof.
  apply (make_request_returns_first_success
           (flaky (VDict [("data", VStr "test")]))
           "GET" "test_endpoint" None None (start with_test_token)
           (a_day_in_2024 + 3600 * us_per_second) 1%nat
           (VDict [("data", VStr "test")])).
  - lia.
  - reflexivity.
  - reflexivity.
  - intros j _. reflexivity.
  - intros j Hj. assert (j = 0%nat) as -> by lia.
    exists (RequestException "timeout"). reflexivity.
  - reflexivity.
Defined.

(** X4. A failed refresh is retried like a failed request: with no token
    held and three token requests in a row that fail before anything is
    stored, [_make_request] raises [RetryError] carrying the [ZohoAuthError]
    of the third, after three token requests and not a single resource
    request; the object is as before. *)
Theorem make_request_retries_failed_refresh (env : Env)
    (method endpoint : string) (params : option (gmap string string))
    (data : option value) (w : World) :
  token_held (this w) = false ->
  (forall k, (k < 3)%nat ->
     exists cause,
       token_request_failure (post_reply env (k + post_calls w)) = Some cause) ->
  exists cause w',
    token_request_failure (post_reply env (2 + post_calls w)) = Some cause /\
    _make_request env method endpoint params data w =
      (Raise (RetryError (ZohoAuthError cause)), w') /\
    post_calls w' = (3 + post_calls w)%nat /\
    request_calls w' = request_calls w /\
    sent_params (trace w') = sent_params (trace w) /\
    this w' = this w.
Proof.
  intros Hnone Hfail.
  destruct (Hfail 0%nat ltac:(lia)) as [c1 H1].
  destruct (Hfail 1%nat ltac:(lia)) as [c2 H2].
  destruct (Hfail 2%nat ltac:(lia)) as [c3 H3].
  cbn [Nat.add] in *.
  exists c3. eexists. split; [exact H3|]. split.
  - unfold _make_request. eapply Retrying_exhausted.
    + apply (attempt_refresh_fails env _ _ _ _ w c1); assumption.
    + apply (attempt_refresh_fails env _ _ _ _ _ c2); assumption.
    + apply (attempt_refresh_fails env _ _ _ _ _ c3); assumption.
  - repeat split. cbn [posted time_sleep snd trace this config].
    unfold sent_params. rewrite !flat_map_app. cbn. rewrite !app_nil_r.
    reflexivity.
Qed.

Lemma make_request_retries_failed_refresh_witness :
  exists w',
    _make_request unreachable "GET" "invoices" None None (start zoho_books) =
      (Raise (RetryError (ZohoAuthError (RequestException "connection refused"))),
       w') /\
    post_calls w' = 3%nat /\
    request_calls w' = 0%nat.
Proof.
  destruct (make_request_retries_failed_refresh unreachable
              "GET" "invoices" None None (start zoho_books) eq_refl
              (fun k _ => ex_intro _ (RequestException "connection refused") eq_refl))
    as (cause & w' & Hcause & Hrun & Hposts & Hreqs & _).
  injection Hcause as <-.
  exists w'. auto.
Defined.

(** X5. An exception of the transport that is no [RequestException] is not
    translated: with a usable token and three such failures in a row,
    [_make_request] raises [RetryError] carrying the third exception itself,
    with no [ZohoAPIError] around it. *)
Theorem make_request_passes_other_exceptions (env : Env)
    (method endpoint : string) (params : option (gmap string string))
    (data : option value) (w : World) (expires_at : Z) :
  token_held (this w) = true ->
  _token_expires_at (this w) = Some expires_at ->
  (forall k, (k < 3)%nat -> clock env (k + now_calls w) < expires_at) ->
  (forall k, (k < 3)%nat ->
     exists e,
       request_reply env (k + request_calls w) = Fails e /\
       is_RequestException e = false) ->
  exists e w',
    request_reply env (2 + request_calls w) = Fails e /\
    _make_request env method endpoint params data w =
      (Raise (RetryError e), w') /\
    request_calls w' = (3 + request_calls w)%nat.
Proof.
  intros Hheld He Hclock Hfail.
  destruct (Hfail 0%nat ltac:(lia)) as (e1 & H1 & N1).
  destruct (Hfail 1%nat ltac:(lia)) as (e2 & H2 & N2).
  destruct (Hfail 2%nat ltac:(lia)) as (e3 & H3 & N3).
  pose proof (Hclock 0%nat ltac:(lia)) as T1.
  pose proof (Hclock 1%nat ltac:(lia)) as T2.
  pose proof (Hclock 2%nat ltac:(lia)) as T3.
  cbn [Nat.add] in *.
  exists e3. eexists. split; [exact H3|]. split.
  - unfold _make_request. eapply Retrying_exhausted.
    + apply (attempt_request_raises_other env _ _ _ _ w expires_at e1); assumption.
    + apply (attempt_request_raises_other env _ _ _ _ _ expires_at e2); assumption.
    + apply (attempt_request_raises_other env _ _ _ _ _ expires_at e3); assumption.
  - reflexivity.
Qed.

Lemma make_request_passes_other_exceptions_witness :
  exists w',
    _make_request
      (steady_env a_day_in_2024 (Fails (PlainException "API Error"))
                  (Fails (PlainException "API Error")))
      "GET" "test_endpoint" None None (start with_test_token) =
      (Raise (RetryError (PlainException "API Error")), w') /\
    request_calls w' = 3%nat.
Proof.
  destruct (make_request_passes_other_exceptions
              (steady_env a_day_in_2024 (Fails (PlainException "API Error"))
                          (Fails (PlainException "API Error")))
              "GET" "test_endpoint" None None (start with_test_token)
              (a_day_in_2024 + 3600 * us_per_second) eq_refl eq_refl
              (fun k _ => eq_refl)
              (fun k _ => ex_intro _ (PlainException "API Error")
                            (conj eq_refl eq_refl)))
    as (e & w' & He & Hrun & Hreqs).
  injection He as <-.
  exists w'. auto.
Defined.

(** With a token held whose expiry the clock has reached, the accessor reads
    the clock and then refreshes. *)
Lemma access_token_expired (env : Env) (w : World) (expires_at : Z) :
  token_held (this w) = true ->
  _token_expires_at (this w) = Some expires_at ->
  expires_at <= clock env (now_calls w) ->
  access_token env w =
  match _refresh_access_token env
          {| this := this w; now_calls := S (now_calls w);
             post_calls := post_calls w; request_calls := request_calls w;
             trace := trace w |} with
  | (Ok _, w2) => (Ok (_access_token (this w2)), w2)
  | (Raise e, w2) => (Raise e, w2)
  end.
Proof.
  intros Hheld He Hle. unfold access_token, bind at 1 2. unfold get_self at 1.
  unfold token_held in Hheld. rewrite Hheld. cbn [negb].
  rewrite token_expired_run, He.
  replace (expires_at <=? clock env (now_calls w)) with true
    by (symmetry; apply Z.leb_le; exact Hle).
  unfold bind, get_self, ret.
  destruct (_refresh_access_token env _) as [[[]|e] w2]; reflexivity.
Qed.

(** An attempt that starts with an expired token: it refreshes, and sends
    the resource request with the token it has just been given. *)
Lemma attempt_refreshes_expired_token (env : Env) (method endpoint : string)
    (params : option (gmap string string)) (data : option value)
    (w : World) (expires_at : Z) (r : Response)
    (items : list (string * value)) (token : value) (expires_at' : Z)
    (body : value) :
  token_held (this w) = true ->
  _token_expires_at (this w) = Some expires_at ->
  expires_at <= clock env (now_calls w) ->
  post_reply env (post_calls w) = Returns r ->
  has_error_status r = false ->
  json_body r = Some (VDict items) ->
  dict_lookup "access_token" items = Some token ->
  new_expiry (clock env (S (now_calls w))) (expires_in_or_default items) =
    Ok expires_at' ->
  parsed_body (request_reply env (request_calls w)) = Some body ->
  _make_request_attempt env method endpoint params data w =
  (Ok body,
   {| this := with_token_pair (this w) token expires_at';
      now_calls := S (S (now_calls w)); post_calls := S (post_calls w);
      request_calls := S (request_calls w);
      trace := (trace w ++
                [EvPost (auth_base_url (config (this w)) +:+ "/token")
                        (token_request_params (config (this w)))]) ++
               [EvRequest method
                          (api_base_url (config (this w)) +:+ "/" +:+ endpoint)
                          token params data] |}).
Proof.
  intros Hheld He Hle Hr Hs Hb Ht Hx Hbody.
  unfold _make_request_attempt, try_except, bind at 1.
  rewrite (access_token_expired env w expires_at Hheld He Hle).
  rewrite (refresh_with_access_token env
             {| this := this w; now_calls := S (now_calls w);
                post_calls := post_calls w; request_calls := request_calls w;
                trace := trace w |} r items token Hr Hs Hb Ht).
  cbn [now_calls]. rewrite Hx.
  unfold raise_for_status, json. unfold_py.
  cbn [this now_calls post_calls request_calls trace posted with_token_pair
       config _access_token].
  unfold parsed_body in Hbody.
  destruct (request_reply env (request_calls w)) as [r2|e]; [|discriminate].
  destruct (has_error_status r2); [discriminate|].
  rewrite Hbody. reflexivity.
Qed.

(** An attempt that starts with no token: the same, without the look at the
    clock. *)
Lemma attempt_fetches_first_token (env : Env) (method endpoint : string)
    (params : option (gmap string string)) (data : option value)
    (w : World) (r : Response)
    (items : list (string * value)) (token : value) (expires_at' : Z)
    (body : value) :
  token_held (this w) = false ->
  post_reply env (post_calls w) = Returns r ->
  has_error_status r = false ->
  json_body r = Some (VDict items) ->
  dict_lookup "access_token" items = Some token ->
  new_expiry (clock env (now_calls w)) (expires_in_or_default items) =
    Ok expires_at' ->
  parsed_body (request_reply env (request_calls w)) = Some body ->
  _make_request_attempt env method endpoint params data w =
  (Ok body,
   {| this := with_token_pair (this w) token expires_at';
      now_calls := S (now_calls w); post_calls := S (post_calls w);
      request_calls := S (request_calls w);
      trace := (trace w ++
                [EvPost (auth_base_url (config (this w)) +:+ "/token")
                        (token_request_params (config (this w)))]) ++
               [EvRequest method
                          (api_base_url (config (this w)) +:+ "/" +:+ endpoint)
                          token params data] |}).
Proof.
  intros Hnone Hr Hs Hb Ht Hx Hbody.
  unfold _make_request_attempt, try_except, bind at 1.
  rewrite (access_token_no_token env w Hnone).
  rewrite (refresh_with_access_token env _ r items token Hr Hs Hb Ht).
  rewrite Hx.
  unfold raise_for_status, json. unfold_py.
  cbn [this now_calls post_calls request_calls trace posted with_token_pair
       config _access_token].
  unfold parsed_body in Hbody.
  destruct (request_reply env (request_calls w)) as [r2|e]; [|discriminate].
  destruct (has_error_status r2); [discriminate|].
  rewrite Hbody. reflexivity.
Qed.

(** X6. The token is checked again in every attempt: when the first request
    fails and the token expires before the second attempt, that attempt
    refreshes first and sends its request with the new token.  The calls
    that go out are: the request with the old token, a sleep of 4, the token
    request, the request with the new token. *)
Theorem make_request_rechecks_token_each_attempt (env : Env)
    (method endpoint : string) (params : option (gmap string string))
    (data : option value) (w : World) (expires_at : Z) (cause : exn)
    (r : Response) (items : list (string * value)) (token : value)
    (expires_at' : Z) (body : value) :
  token_held (this w) = true ->
  _token_expires_at (this w) = Some expires_at ->
  clock env (now_calls w) < expires_at ->
  transport_or_status_failure (request_reply env (request_calls w)) = Some cause ->
  expires_at <= clock env (1 + now_calls w) ->
  post_reply env (post_calls w) = Returns r ->
  has_error_status r = false ->
  json_body r = Some (VDict items) ->
  dict_lookup "access_token" items = Some token ->
  new_expiry (clock env (2 + now_calls w)) (expires_in_or_default items) =
    Ok expires_at' ->
  parsed_body (request_reply env (1 + request_calls w)) = Some body ->
  exists w',
    _make_request env method endpoint params data w = (Ok body, w') /\
    this w' = with_token_pair (this w) token expires_at' /\
    trace w' =
      trace w ++
      [EvRequest method (api_base_url (config (this w)) +:+ "/" +:+ endpoint)
                 (_access_token (this w)) params data;
       EvSleep 4;
       EvPost (auth_base_url (config (this w)) +:+ "/token")
              (token_request_params (config (this w)));
       EvRequest method (api_base_url (config (this w)) +:+ "/" +:+ endpoint)
                 token params data].
Proof.
  intros Hheld He Hlt Hfail Hle Hr Hs Hb Ht Hx Hbody. cbn [Nat.add] in *.
  eexists. unfold _make_request. rewrite Retrying_step.
  rewrite (attempt_request_fails env _ _ _ _ w expires_at cause) by assumption.
  cbn [stop_after_attempt Nat.leb]. rewrite Retrying_step.
  rewrite (attempt_refreshes_expired_token env _ _ _ _ _ expires_at r items
             token expires_at' body) by assumption.
  cbn [requested time_sleep snd trace this config].
  split; [reflexivity|]. split; [reflexivity|].
  rewrite <- !app_assoc. reflexivity.
Qed.

Lemma make_request_rechecks_token_each_attempt_witness :
  exists w',
    _make_request (expiring (VDict [("data", VStr "test")]))
                  "GET" "test_endpoint" None None (start with_test_token) =
      (Ok (VDict [("data", VStr "test")]), w') /\
    _access_token (this w') = VStr "new_token" /\
    sleeps (trace w') = [4].
Proof.
  destruct (make_request_rechecks_token_each_attempt
              (expiring (VDict [("data", VStr "test")]))
              "GET" "test_endpoint" None None (start with_test_token)
              (a_day_in_2024 + 3600 * us_per_second)
              (RequestException "timeout")
              {| status_code := 200;
                 json_body := Some (VDict [("access_token", VStr "new_token");
                                           ("expires_in", VInt 3600)]) |}
              [("access_token", VStr "new_token"); ("expires_in", VInt 3600)]
              (VStr "new_token")
              (a_day_in_2024 + 7200 * us_per_second + 3600 * us_per_second)
              (VDict [("data", VStr "test")]))
    as (w' & Hrun & Hthis & Htrace); try reflexivity.
  - vm_compute. discriminate.
  - exists w'. rewrite Hthis, Htrace. repeat split; try exact Hrun.
Defined.

(** X7. First use: with no token held, a token endpoint that hands out a
    token and a resource endpoint that answers with a JSON object,
    [get_invoices] sends one token request and then one GET of
    [{api_base_url}/invoices] that carries the new token and the query
    parameters, stores token and expiry, and returns the object's
    ["invoices"] (the empty list if it has none). *)
Theorem get_invoices_first_use (env : Env) (w : World)
    (from_date to_date status : option string) (r : Response)
    (items : list (string * value)) (token : value) (expires_at' : Z)
    (answer : list (string * value)) :
  token_held (this w) = false ->
  post_reply env (post_calls w) = Returns r ->
  has_error_status r = false ->
  json_body r = Some (VDict items) ->
  dict_lookup "access_token" items = Some token ->
  new_expiry (clock env (now_calls w)) (expires_in_or_default items) =
    Ok expires_at' ->
  parsed_body (request_reply env (request_calls w)) = Some (VDict answer) ->
  exists w',
    get_invoices env from_date to_date status w =
      (Ok (match dict_lookup "invoices" answer with
           | Some invoices => invoices
           | None => VList []
           end), w') /\
    this w' = with_token_pair (this w) token expires_at' /\
    trace w' =
      trace w ++
      [EvPost (auth_base_url (config (this w)) +:+ "/token")
              (token_request_params (config (this w)));
       EvRequest "GET" (api_base_url (config (this w)) +:+ "/invoices") token
                 (Some (invoice_params (this w) from_date to_date status))
                 None].
Proof.
  intros Hnone Hr Hs Hb Ht Hx Hbody.
  eexists. unfold get_invoices, bind, get_self, _make_request.
  rewrite Retrying_step.
  rewrite (attempt_fetches_first_token env _ _ _ _ w r items token expires_at'
             (VDict answer)) by assumption.
  unfold lift, get.
  split; [destruct (dict_lookup "invoices" answer); reflexivity|].
  split; [reflexivity|]. cbn [trace]. rewrite <- app_assoc. reflexivity.
Qed.

Lemma get_invoices_first_use_witness :
  exists w',
    get_invoices (serving (VDict [])) None None None (start zoho_books) =
      (Ok (VList []), w') /\
    _access_token (this w') = VStr "new_token".
Proof.
  destruct (get_invoices_first_use (serving (VDict [])) (start zoho_books)
              None None None
              {| status_code := 200;
                 json_body := Some (VDict [("access_token", VStr "new_token");
                                           ("expires_in", VInt 3600)]) |}
              [("access_token", VStr "new_token"); ("expires_in", VInt 3600)]
              (VStr "new_token") (a_day_in_2024 + 3600 * us_per_second) [])
    as (w' & Hrun & Hthis & _); try reflexivity.
  exists w'. rewrite Hthis. split; [exact Hrun|reflexivity].
Defined.

(** *** [get_invoices], the other ways out *)

(** X8. When the reply parses to JSON that is no object (a list, a string,
    a number, [null]), [get_invoices] raises [AttributeError]: the tolerance
    for a missing ["invoices"] key does not extend to a body without keys. *)
Theorem get_invoices_non_object_response (env : Env) (w w' : World)
    (from_date to_date status : option string) (response : value) :
  _make_request env "GET" "invoices"
    (Some (invoice_params (this w) from_date to_date status)) None w =
    (Ok response, w') ->
  (forall items, response <> VDict items) ->
  get_invoices env from_date to_date status w = (Raise AttributeError, w').
Proof.
  intros Hrun Hshape. unfold get_invoices, bind, get_self. rewrite Hrun.
  unfold lift, get.
  destruct response; try reflexivity. exfalso. exact (Hshape items eq_refl).
Qed.

Lemma get_invoices_non_object_response_witness :
  fst (get_invoices (serving (VList [])) None None None (start zoho_books)) =
  Raise AttributeError.
Proof.
  pose (out := _make_request (serving (VList [])) "GET" "invoices"
                 (Some (invoice_params zoho_books None None None)) None
                 (start zoho_books)).
  assert (Hrun : out = (Ok (VList []), snd out)) by (vm_compute; reflexivity).
  rewrite (get_invoices_non_object_response
             (serving (VList [])) (start zoho_books) (snd out)
             None None None (VList []) Hrun);
    [reflexivity|discriminate].
Defined.

(** X9. Whatever [get_invoices] raises is a [RetryError] out of
    [_make_request] or the [AttributeError] of a body that is no object;
    never a [ZohoAPIError], a [ZohoAuthError] or a [KeyError].  And it
    never changes the configuration. *)
Theorem get_invoices_raises_retry_or_attribute_error (env : Env) (w : World)
    (from_date to_date status : option string) :
  let out := get_invoices env from_date to_date status w in
  (forall e, fst out = Raise e ->
     ((exists last, e = RetryError last) \/ e = AttributeError) /\
     is_ZohoAPIError e = false /\ is_ZohoAuthError e = false /\
     (forall key, e <> KeyError key)) /\
  config (this (snd out)) = config (this w).
Proof.
  intros out. subst out. unfold get_invoices, bind, get_self.
  pose proof (make_request_grows env "GET" "invoices"
                (Some (invoice_params (this w) from_date to_date status)) None w
                eq_refl) as (Hcfg & _).
  destruct (_make_request env "GET" "invoices" _ None w) as [[response|e0] w']
    eqn:Hrun; cbn [snd] in Hcfg.
  - split; [|exact Hcfg]. unfold lift, get. intros e.
    destruct response; try destruct (dict_lookup "invoices" items);
      cbn [fst]; intros [= <-]; repeat split; auto; discriminate.
  - split; [|exact Hcfg]. cbn [fst]. intros e [= <-].
    assert (Hraise : fst (_make_request env "GET" "invoices"
              (Some (invoice_params (this w) from_date to_date status)) None w) =
              Raise e0) by (rewrite Hrun; reflexivity).
    apply Retrying_raises in Hraise as [last ->].
    repeat split; eauto; discriminate.
Qed.

Lemma get_invoices_raises_retry_or_attribute_error_witness :
  (exists last,
      RetryError (ZohoAuthError (RequestException "connection refused")) =
      RetryError last) \/
  RetryError (ZohoAuthError (RequestException "connection refused")) =
  AttributeError.
Proof.
  apply (proj1 (get_invoices_raises_retry_or_attribute_error
                  unreachable (start zoho_books) None None None)).
  vm_compute. reflexivity.
Defined.

(** *** The accessor *)

(** The accessor hands out what is stored. *)
Lemma access_token_hands_out_stored (env : Env) (w : World)
    (token : value) :
  fst (access_token env w) = Ok token ->
  token = _access_token (this (snd (access_token env w))).
Proof.
  destruct (stale_or_fresh env w) as [Hstale|(t & Hheld & He & Hlt)].
  - destruct (access_token_stale env w Hstale) as (w1 & _ & _ & _ & _ & ->).
    destruct (_refresh_access_token env w1) as [[[]|e] w2]; cbn [fst snd];
      congruence.
  - rewrite (access_token_fresh env w t Hheld He Hlt). cbn [fst snd this].
    congruence.
Qed.

(** X10. What [access_token] returns is the token the object holds when it
    returns; what it raises is a [ZohoAuthError]; it sends no resource
    request and keeps the configuration. *)
Theorem access_token_returns_stored_token (env : Env) (w : World) :
  let out := access_token env w in
  (forall token, fst out = Ok token ->
     token = _access_token (this (snd out))) /\
  (forall e, fst out = Raise e -> exists cause, e = ZohoAuthError cause) /\
  request_calls (snd out) = request_calls w /\
  config (this (snd out)) = config (this w).
Proof.
  intros out. subst out.
  destruct (stale_or_fresh env w) as [Hstale|(t & Hheld & He & Hlt)].
  - destruct (access_token_stale env w Hstale)
      as (w1 & Hthis & _ & Hreq & _ & ->).
    pose proof (refresh_world env w1) as (_ & Hreq' & _ & Hcfg).
    pose proof (refresh_raises_auth_error env w1) as Hauth.
    destruct (_refresh_access_token env w1) as [[[]|e] w2]; cbn [fst snd] in *;
      repeat split; try congruence.
    intros e' [= <-]. apply Hauth. reflexivity.
  - rewrite (access_token_fresh env w t Hheld He Hlt). cbn [fst snd this
      request_calls]. repeat split; congruence.
Qed.

Lemma access_token_returns_stored_token_witness :
  exists cause,
    ZohoAuthError (RequestException "connection refused") = ZohoAuthError cause.
Proof.
  apply (proj1 (proj2 (access_token_returns_stored_token
                         unreachable (start zoho_books)))).
  reflexivity.
Defined.

(** X11. The token is cached: after [access_token] has returned a non-empty
    token, a second call made while the clock is before the stored expiry
    returns the same token, sends nothing and leaves the object alone. *)
Theorem access_token_is_cached (env : Env) (w : World) (token : value)
    (expires_at : Z) :
  fst (access_token env w) = Ok token ->
  truthy token = true ->
  let w1 := snd (access_token env w) in
  _token_expires_at (this w1) = Some expires_at ->
  clock env (now_calls w1) < expires_at ->
  fst (access_token env w1) = Ok token /\
  this (snd (access_token env w1)) = this w1 /\
  post_calls (snd (access_token env w1)) = post_calls w1 /\
  trace (snd (access_token env w1)) = trace w1.
Proof.
  intros Hok Htruthy w1 He Hlt. subst w1.
  pose proof (access_token_hands_out_stored env w token Hok) as Hstored.
  rewrite (access_token_fresh env _ expires_at); auto.
  - cbn [fst snd this post_calls trace]. rewrite <- Hstored. auto.
  - unfold token_held. rewrite <- Hstored. exact Htruthy.
Qed.

Lemma access_token_is_cached_witness :
  let env := serving (VDict []) in
  let w1 := snd (access_token env (start zoho_books)) in
  fst (access_token env w1) = Ok (VStr "new_token") /\
  this (snd (access_token env w1)) = this w1 /\
  post_calls (snd (access_token env w1)) = post_calls w1 /\
  trace (snd (access_token env w1)) = trace w1.
Proof.
  intros env w1.
  apply (access_token_is_cached env (start zoho_books) (VStr "new_token")
           (a_day_in_2024 + 3600 * us_per_second)); reflexivity.
Defined.

(** A due refresh sends exactly one token request. *)
Lemma access_token_stale_posts (env : Env) (w : World) :
  token_held (this w) = false \/ fst (_token_expired env w) = Ok true ->
  post_calls (snd (access_token env w)) = S (post_calls w).
Proof.
  intros Hstale.
  destruct (access_token_stale env w Hstale) as (w1 & _ & Hposts & _ & _ & ->).
  pose proof (refresh_world env w1) as (Hpc & _).
  destruct (_refresh_access_token env w1) as [[[]|e] w2]; simpl in *;
    congruence.
Qed.

(** *** The token request *)

(** X12. Every refresh, however it ends, sends exactly one token request
    and no resource request: a POST to [{auth_base_url}/token] whose query
    holds [refresh_token], [client_id] and [client_secret] from the
    configuration and [grant_type=refresh_token], and nothing else. *)
Theorem refresh_sends_credentials (env : Env) (w : World) :
  let cfg := config (this w) in
  let w' := snd (_refresh_access_token env w) in
  token_requests (trace w') =
    token_requests (trace w) ++
    [(auth_base_url cfg +:+ "/token", token_request_params cfg)] /\
  sent_params (trace w') = sent_params (trace w) /\
  token_request_params cfg !! "refresh_token" = Some (refresh_token cfg) /\
  token_request_params cfg !! "client_id" = Some (client_id cfg) /\
  token_request_params cfg !! "client_secret" = Some (client_secret cfg) /\
  token_request_params cfg !! "grant_type" = Some "refresh_token" /\
  (forall k, k <> "refresh_token" -> k <> "client_id" ->
             k <> "client_secret" -> k <> "grant_type" ->
             token_request_params cfg !! k = None).
Proof.
  intros cfg w'. subst cfg w'.
  pose proof (refresh_world env w) as (_ & _ & -> & _).
  unfold posted, token_requests, sent_params. cbn [trace].
  rewrite !flat_map_app. cbn [flat_map app]. rewrite app_nil_r.
  unfold token_request_params.
  do 2 (split; [reflexivity|]).
  split; [rewrite !lookup_insert_ne by discriminate; apply lookup_singleton_eq|].
  split; [rewrite !lookup_insert_ne by discriminate; apply lookup_insert_eq|].
  split; [rewrite !lookup_insert_ne by discriminate; apply lookup_insert_eq|].
  split; [apply lookup_insert_eq|].
  intros k H1 H2 H3 H4. rewrite !lookup_insert_ne by congruence.
  apply lookup_singleton_ne. congruence.
Qed.

(** [new_expiry] on an integer: the two range checks decide, and either
    failure is an [OverflowError]. *)
Lemma new_expiry_int_cases (now : Z) (v : value) (n : Z) :
  as_int v = Some n ->
  new_expiry now v =
  if ((- timedelta_max_days <=? n / seconds_per_day)
      && (n / seconds_per_day <=? timedelta_max_days))
     && ((0 <=? now + n * us_per_second)
         && (now + n * us_per_second <=? datetime_max))
  then Ok (now + n * us_per_second)
  else Raise OverflowError.
Proof.
  intros Hv. unfold new_expiry, timedelta_seconds, datetime_add.
  destruct v; simpl in Hv; try discriminate; injection Hv as ->;
    destruct ((- timedelta_max_days <=? n / seconds_per_day)
              && (n / seconds_per_day <=? timedelta_max_days));
    cbn [andb]; try reflexivity;
    destruct ((0 <=? now + n * us_per_second)
              && (now + n * us_per_second <=? datetime_max)); reflexivity.
Qed.

(** X13. An [expires_in] of zero or less is not refused as such.  When the
    expiry [now + expires_in] is still a date Python can represent, the
    refresh succeeds and stores an expiry that is not after [now]: the token
    is expired from the start, and (the clock not running backwards) the next
    [access_token] refreshes again.  When it is not (the expiry would fall
    before year 1, or the number of days is below -999999999), the refresh
    raises [ZohoAuthError] from an [OverflowError], with the token already
    stored and the expiry as before. *)
Theorem refresh_nonpositive_expires_in (env : Env) (w : World)
    (r : Response) (items : list (string * value)) (token : value) (n : Z) :
  post_reply env (post_calls w) = Returns r ->
  has_error_status r = false ->
  json_body r = Some (VDict items) ->
  dict_lookup "access_token" items = Some token ->
  as_int (expires_in_or_default items) = Some n ->
  n <= 0 ->
  let now := clock env (now_calls w) in
  let out := _refresh_access_token env w in
  let representable :=
    - timedelta_max_days * seconds_per_day <= n /\
    0 <= now + n * us_per_second <= datetime_max in
  (representable ->
     fst out = Ok tt /\
     _token_expires_at (this (snd out)) = Some (now + n * us_per_second) /\
     (now <= clock env (now_calls (snd out)) ->
        fst (_token_expired env (snd out)) = Ok true /\
        post_calls (snd (access_token env (snd out))) =
          S (post_calls (snd out)))) /\
  (~ representable ->
     fst out = Raise (ZohoAuthError OverflowError) /\
     _access_token (this (snd out)) = token /\
     _token_expires_at (this (snd out)) = _token_expires_at (this w)).
Proof.
  intros H Hs Hb Ht Hn Hle now out representable.
  subst now out representable.
  rewrite (refresh_with_access_token env w r items token H Hs Hb Ht).
  rewrite (new_expiry_int_cases _ _ n Hn).
  pose proof (Z.mul_div_le n seconds_per_day ltac:(reflexivity)) as Hlow.
  pose proof (Z.mul_succ_div_gt n seconds_per_day ltac:(reflexivity)) as Hup.
  unfold seconds_per_day, timedelta_max_days, us_per_second in *.
  repeat match goal with
         | |- context [?a <=? ?b] => destruct (Z.leb_spec a b)
         end;
    cbn [andb fst snd this _token_expires_at _access_token with_token
         with_token_pair now_calls];
    (split; [intros (Hd & Ha1 & Ha2)|intros Hnot]);
    try lia;
    try (repeat split; reflexivity);
    try (exfalso; apply Hnot; lia).
  split; [reflexivity|]. split; [reflexivity|]. intros Hclock.
  assert (Hexpired :
    fst (_token_expired env
           {| this := with_token_pair (this w) token
                        (clock env (now_calls w) + n * 1000000);
              now_calls := S (now_calls w); post_calls := S (post_calls w);
              request_calls := request_calls w; trace := trace (posted w) |})
    = Ok true).
  { apply token_expired_true_iff. right. eexists.
    split; [reflexivity|]. cbn [now_calls]. lia. }
  split; [exact Hexpired|].
  apply access_token_stale_posts. right. exact Hexpired.
Qed.

Lemma refresh_nonpositive_expires_in_witness :
  let env := answering [("access_token", VStr "T"); ("expires_in", VInt (-60))] in
  let out := _refresh_access_token env (start zoho_books) in
  fst out = Ok tt /\
  _token_expires_at (this (snd out)) =
    Some (a_day_in_2024 + (-60) * us_per_second) /\
  fst (_token_expired env (snd out)) = Ok true /\
  post_calls (snd (access_token env (snd out))) = S (post_calls (snd out)).
Proof.
  intros env out.
  destruct (proj1 (refresh_nonpositive_expires_in env (start zoho_books)
              {| status_code := 200;
                 json_body := Some (VDict [("access_token", VStr "T");
                                           ("expires_in", VInt (-60))]) |}
              [("access_token", VStr "T"); ("expires_in", VInt (-60))]
              (VStr "T") (-60) eq_refl eq_refl eq_refl eq_refl eq_refl
              ltac:(lia)))
    as (Hok & Hexpiry & Hnext).
  - vm_compute. repeat split; discriminate.
  - destruct Hnext as (Hexpired & Hposts).
    + vm_compute. discriminate.
    + repeat split; assumption.
Defined.

(** An [expires_in] that takes the expiry before year 1. *)
Example refresh_expires_in_before_year_one :
  let out := _refresh_access_token
               (answering [("access_token", VStr "T");
                           ("expires_in", VInt (-70000000000))])
               (start zoho_books) in
  fst out = Raise (ZohoAuthError OverflowError) /\
  _access_token (this (snd out)) = VStr "T" /\
  _token_expires_at (this (snd out)) = None.
Proof. repeat split. Qed.

(** *** Settings *)

(** X14. [get_config] returns a configuration exactly when the four
    settings without default (client id, client secret, refresh token,
    organization id) are set under their [zoho_] names; otherwise it raises
    [ValueError] from a [ValidationError] that names the unset ones, and at
    least one.  What is set need not be non-empty. *)
Theorem get_config_needs_required_settings (env_vars : gmap string string) :
  ((exists cfg, get_config env_vars = inl cfg) <->
     is_Some (env_vars !! "zoho_client_id") /\
     is_Some (env_vars !! "zoho_client_secret") /\
     is_Some (env_vars !! "zoho_refresh_token") /\
     is_Some (env_vars !! "zoho_organization_id")) /\
  (forall e, get_config env_vars = inr e ->
     exists missing,
       e = ValueError (ValidationError missing) /\
       missing <> [] /\
       forall field,
         In field missing <->
         In field required_fields /\ env_vars !! env_name field = None).
Proof.
  unfold get_config, ZohoConfig_init.
  change (env_name "client_id") with "zoho_client_id".
  change (env_name "client_secret") with "zoho_client_secret".
  change (env_name "refresh_token") with "zoho_refresh_token".
  change (env_name "organization_id") with "zoho_organization_id".
  assert (Hfilter : forall field,
             In field (List.filter (is_unset env_vars) required_fields) <->
             In field required_fields /\ env_vars !! env_name field = None).
  { intros field. rewrite filter_In. unfold is_unset.
    destruct (env_vars !! env_name field); split; intros [? ?]; split;
      auto; discriminate. }
  assert (Hin : forall field,
             In field required_fields ->
             env_vars !! env_name field = None ->
             List.filter (is_unset env_vars) required_fields <> []).
  { intros field Hf Hnone Hnil.
    assert (Hmem : In field (List.filter (is_unset env_vars) required_fields))
      by (apply Hfilter; auto).
    rewrite Hnil in Hmem. destruct Hmem. }
  destruct (env_vars !! "zoho_client_id") as [id|] eqn:H1;
    [destruct (env_vars !! "zoho_client_secret") as [secret|] eqn:H2;
     [destruct (env_vars !! "zoho_refresh_token") as [refresh|] eqn:H3;
      [destruct (env_vars !! "zoho_organization_id") as [org|] eqn:H4|]|]|].
  - split; [|discriminate]. split; [|eauto]. intros _. repeat split; eauto.
  - split.
    + split; [intros [cfg [=]]|]. intros (_ & _ & _ & [x [=]]).
    + intros e [= <-]. eexists. split; [reflexivity|]. split; [|exact Hfilter].
      apply (Hin "organization_id"); [cbn; auto|exact H4].
  - split.
    + split; [intros [cfg [=]]|]. intros (_ & _ & [x [=]] & _).
    + intros e [= <-]. eexists. split; [reflexivity|]. split; [|exact Hfilter].
      apply (Hin "refresh_token"); [cbn; auto|exact H3].
  - split.
    + split; [intros [cfg [=]]|]. intros (_ & [x [=]] & _).
    + intros e [= <-]. eexists. split; [reflexivity|]. split; [|exact Hfilter].
      apply (Hin "client_secret"); [cbn; auto|exact H2].
  - split.
    + split; [intros [cfg [=]]|]. intros ([x [=]] & _).
    + intros e [= <-]. eexists. split; [reflexivity|]. split; [|exact Hfilter].
      apply (Hin "client_id"); [cbn; auto|exact H1].
Qed.

Lemma get_config_needs_required_settings_witness :
  exists cfg, get_config test_environ = inl cfg.
Proof.
  apply (proj1 (get_config_needs_required_settings test_environ)).
  repeat split; eexists; reflexivity.
Defined.



(** X15. [ZohoBooks()] builds a client exactly when [get_config] returns
    and the log sink can be added: the client then has that configuration, no
    token and no expiry.  When [get_config] raises, its error comes out and
    the sink is not touched; when the sink cannot be added, that exception
    comes out.  A client that was built is reported expired, and its first
    [access_token] sends a token request whatever the clock shows. *)
Theorem new_client_refreshes_on_first_use (env : Env)
    (env_vars : gmap string string) (log_sink : option exn) :
  (forall cfg,
     get_config env_vars = inl cfg -> log_sink = None ->
     __init__ env_vars log_sink =
       inl {| config := cfg; _access_token := VNone;
              _token_expires_at := None |}) /\
  (forall e,
     get_config env_vars = inr e ->
     __init__ env_vars log_sink = inr (ConfigError e)) /\
  (forall cfg e,
     get_config env_vars = inl cfg -> log_sink = Some e ->
     __init__ env_vars log_sink = inr (LogSinkError e)) /\
  (forall self w,
     __init__ env_vars log_sink = inl self ->
     this w = self ->
     get_config env_vars = inl (config self) /\
     log_sink = None /\
     token_held self = false /\
     fst (_token_expired env w) = Ok true /\
     post_calls (snd (access_token env w)) = S (post_calls w)).
Proof.
  unfold __init__. repeat apply conj.
  - intros cfg -> ->. reflexivity.
  - intros e ->. reflexivity.
  - intros cfg e -> ->. reflexivity.
  - intros self w Hnew Hw.
    destruct (get_config env_vars) as [cfg|e]; [|discriminate].
    destruct log_sink as [e|]; [discriminate|].
    injection Hnew as <-.
    assert (Hnone : token_held (this w) = false)
      by (unfold token_held; rewrite Hw; reflexivity).
    split; [reflexivity|]. split; [reflexivity|].
    split; [reflexivity|]. split.
    + apply token_expired_true_iff. left. rewrite Hw. reflexivity.
    + apply access_token_stale_posts. left. exact Hnone.
Qed.

Lemma new_client_refreshes_on_first_use_witness :
  __init__ test_environ None = inl zoho_books /\
  post_calls (snd (access_token unreachable (start zoho_books))) = 1%nat.
Proof.
  pose proof (new_client_refreshes_on_first_use unreachable test_environ None)
    as (Hbuilt & _ & _ & Hfirst).
  split.
  - exact (Hbuilt mock_config eq_refl eq_refl).
  - apply (Hfirst zoho_books (start zoho_books)
                  (Hbuilt mock_config eq_refl eq_refl) eq_refl).
Defined.



